(** * Store-ratings server: a shallow embedding of [index.js]

    The server is a set of Express route handlers over a Prisma client.
    Every handler is embedded as a function from the database state and
    the request to a response and a new database state.  Exceptions of
    the data layer are explicit ([Result]), and each handler ends with
    the [catch] clause the source gives it. *)

From Stdlib Require Import ZArith QArith Qabs List Bool String Ascii Lia.
From Stdlib Require Import Permutation Sorted.
Import ListNotations.

Local Open Scope Z_scope.

(** ** JavaScript values *)

Module Js.

(** A JavaScript string is a sequence of UTF-16 code units; [length] is
    the [.length] property. *)
Definition jsstring := list Z.

Definition code (c : ascii) : Z := Z.of_nat (nat_of_ascii c).

(** An ASCII literal as a JavaScript string. *)
Definition lit (s : string) : jsstring := map code (list_ascii_of_string s).

Fixpoint str_eqb (a b : jsstring) : bool :=
  match a, b with
  | [], [] => true
  | x :: a', y :: b' => (x =? y) && str_eqb a' b'
  | _, _ => false
  end.

(** A value of a JSON request body, as far as the handlers look at it.
    A JSON number is a finite double, kept as the rational it denotes
    (a literal too large for a double parses to an infinity: [JInf]).
    Every other value (undefined, null, booleans, strings, arrays,
    objects) is observed only through [ToBoolean] and through [ToNumber]
    in a comparison with a number, where [None] is NaN. *)
Inductive jsval :=
| JNumber (q : Q)
| JInf (negative : bool)
| JOther (toBoolean : bool) (toNumber : option Q).

(** [!v] *)
Definition not_ (v : jsval) : bool :=
  match v with
  | JNumber q => Qeq_bool q 0
  | JInf _ => false
  | JOther b _ => negb b
  end.

Definition Qlt_bool (a b : Q) : bool := negb (Qle_bool b a).

(** [v < n] and [v > n] for a number [n]: false as soon as NaN is
    involved. *)
Definition lt_num (v : jsval) (n : Q) : bool :=
  match v with
  | JNumber q => Qlt_bool q n
  | JInf negative => negative
  | JOther _ (Some q) => Qlt_bool q n
  | JOther _ None => false
  end.

Definition gt_num (v : jsval) (n : Q) : bool :=
  match v with
  | JNumber q => Qlt_bool n q
  | JInf negative => negb negative
  | JOther _ (Some q) => Qlt_bool n q
  | JOther _ None => false
  end.

(** The value as Prisma writes it to a column of type Int: a number is
    cut to its integer part (2.5 is written as 2), anything else is
    refused.  The 32 bits of the column are looked at where an id is
    searched ([where_id]); behind the handler's own test a rating is
    within them. *)
Definition as_int (v : jsval) : option Z :=
  match v with
  | JNumber q => Some (Z.quot (Qnum q) (Zpos (Qden q)))
  | _ => None
  end.

(** *** Double-precision division

    [a / b] on two doubles that hold integers.  The result is the
    rational [m * 2^e] with a 53-bit significand [m], the nearest such
    number to the exact quotient, ties to the even significand. *)

(** Nearest integer to [n / d] for [0 < d], ties to even. *)
Definition rne (n d : Z) : Z :=
  let q := n / d in
  let r := n mod d in
  if 2 * r <? d then q
  else if d <? 2 * r then q + 1
  else if Z.even q then q else q + 1.

(** [floor (log2 (a / b))] for positive [a] and [b]. *)
Definition binade (a b : Z) : Z :=
  if b <=? a then Z.log2 (a / b)
  else - Z.log2_up ((b + a - 1) / a).

Definition scaled (m e : Z) : Q :=
  if 0 <=? e then inject_Z (m * 2 ^ e) else Qmake m (Z.to_pos (2 ^ (- e))).

Definition fdiv_pos (a b : Z) : Q :=
  let e := binade a b - 52 in
  let m := rne (a * 2 ^ Z.max 0 (- e)) (b * 2 ^ Z.max 0 e) in
  scaled m e.

(** [a / b] for an integer [a] and a positive integer [b], both exact as
    doubles (magnitude at most [2^53]); the quotient is then in the
    normal range. *)
Definition fdiv (a b : Z) : Q :=
  if a =? 0 then 0%Q
  else if a <? 0 then Qopp (fdiv_pos (- a) b)
  else fdiv_pos a b.

(** [x.toFixed(1)] for [|x| < 1e21]: the digits [n] of the string, which
    reads [n / 10]; [n / 10 - x] is as close to zero as possible and of
    two such [n] the larger is taken, on the absolute value. *)
Definition toFixed1_digits (x : Q) : Z :=
  let num := Z.abs (Qnum x) in
  let den := Zpos (Qden x) in
  Z.sgn (Qnum x) * ((20 * num + den) / (2 * den)).

(** [parseFloat(x.toFixed(1))] as the response prints it: from [1e21] on
    [toFixed] falls back to [ToString], which [parseFloat] reads back
    as [x]; below, the double nearest to [n / 10] prints as [n / 10]. *)
Definition parseFloat_toFixed1 (x : Q) : Q :=
  if Qle_bool (inject_Z (10 ^ 21)) (Qabs x) then x
  else Qmake (toFixed1_digits x) 10.

End Js.

Import Js.

(** ** Validation functions *)

(** [name && name.length >= 20 && name.length <= 60] *)
Definition validateName (name : jsstring) : bool :=
  let n := Z.of_nat (List.length name) in
  negb (n =? 0) && (20 <=? n) && (n <=? 60).

(** [address && address.length <= 400]: the empty string is falsy. *)
Definition validateAddress (address : jsstring) : bool :=
  let n := Z.of_nat (List.length address) in
  negb (n =? 0) && (n <=? 400).

(** The class [\s] of a regular expression, on code units. *)
Definition is_space (c : Z) : bool :=
  ((9 <=? c) && (c <=? 13)) || (c =? 32) || (c =? 160) || (c =? 5760)
  || ((8192 <=? c) && (c <=? 8202)) || (c =? 8232) || (c =? 8233)
  || (c =? 8239) || (c =? 8287) || (c =? 12288) || (c =? 65279).

(** The class [[^\s@]]. *)
Definition plain (c : Z) : bool := negb (is_space c) && negb (c =? 64).

(** [[^\s@]+\.[^\s@]+$]: plain code units only, with a dot that is
    neither the first nor the last of them. *)
Fixpoint inner_dot (l : jsstring) : bool :=
  match l with
  | [] => false
  | c :: rest => (c =? 46) && negb (Nat.eqb (List.length rest) 0) || inner_dot rest
  end.

Definition domain_ok (l : jsstring) : bool :=
  match l with
  | [] => false
  | c :: rest => forallb plain l && inner_dot rest
  end.

(** [^[^\s@]+@...]: the first [@] ends the local part, which is not
    empty. *)
Fixpoint local_then_domain (seen : bool) (l : jsstring) : bool :=
  match l with
  | [] => false
  | c :: rest =>
      if c =? 64 then seen && domain_ok rest
      else plain c && local_then_domain true rest
  end.

(** [email && /^[^\s@]+@[^\s@]+\.[^\s@]+$/.test(email)] *)
Definition validateEmail (email : jsstring) : bool :=
  local_then_domain false email.

(** ** Data model *)

Inductive Role := USER | OWNER | ADMIN.

Definition role_eqb (a b : Role) : bool :=
  match a, b with
  | USER, USER | OWNER, OWNER | ADMIN, ADMIN => true
  | _, _ => false
  end.

(** [["USER", "OWNER", "ADMIN"].includes(role)], with the role read. *)
Definition role_of_string (s : jsstring) : option Role :=
  if str_eqb s (lit "USER") then Some USER
  else if str_eqb s (lit "OWNER") then Some OWNER
  else if str_eqb s (lit "ADMIN") then Some ADMIN
  else None.

(** Modelled from the spec: the Prisma schema of the three tables is not
    among the sources.  The columns are those of the spec's data model
    and of the queries in [index.js]: integer ids, a unique email, a
    rating of type Int, one rating per (storeId, userId), and the
    relations store -> owner, rating -> store, rating -> user, which
    the [include] and [_count] queries of the handlers go through. *)
Record User := {
  u_id : Z;
  u_name : jsstring;
  u_email : jsstring;
  u_password : jsstring;
  u_role : Role;
  u_createdAt : Z
}.

Record Store := {
  st_id : Z;
  st_name : jsstring;
  st_address : jsstring;
  st_ownerId : Z
}.

Record Rating := {
  r_id : Z;
  r_rating : Z;
  r_storeId : Z;
  r_userId : Z
}.

(** The database: the rows of each table in table order and the
    sequences the ids of new stores and ratings are drawn from. *)
Record Db := {
  users : list User;
  stores : list Store;
  ratings : list Rating;
  store_seq : Z;
  rating_seq : Z
}.

(** What a [try] block can throw: a Prisma request error with its code
    (P2002 unique constraint, P2003 foreign key, P2025 record not
    found), a Prisma validation error (an argument of the wrong type),
    or a TypeError of the handler's own code. *)
Inductive Exn := P2002 | P2003 | P2025 | PrismaValidation | TypeError.

Inductive Result (A : Type) :=
| Ok (a : A)
| Throw (e : Exn).
Arguments Ok {A} a.
Arguments Throw {A} e.

(** A handler's [try] block: a computation on the database that returns
    or throws.  What was written before a throw stays written. *)
Definition M (A : Type) : Type := Db -> Result A * Db.

Definition ret {A} (a : A) : M A := fun db => (Ok a, db).

Definition throw {A} (e : Exn) : M A := fun db => (Throw e, db).

Definition bind {A B} (m : M A) (k : A -> M B) : M B :=
  fun db =>
    match m db with
    | (Ok a, db') => k a db'
    | (Throw e, db') => (Throw e, db')
    end.

Notation "'await' x <- m ; k" := (bind m (fun x => k))
  (at level 61, x pattern, m at next level, right associativity).

(** A query. *)
Definition read {A} (f : Db -> A) : M A := fun db => (Ok (f db), db).

(** A single write, which changes nothing when it throws. *)
Definition write {A} (f : Db -> Result (A * Db)) : M A :=
  fun db =>
    match f db with
    | Ok (a, db') => (Ok a, db')
    | Throw e => (Throw e, db)
    end.

(** ** The Prisma client on this schema

    Each call of the client the handlers make, on the tables as lists
    of rows.  [findUnique] answers [null] for no row.  A write is
    atomic: [update] and [delete] throw P2025 when no row has the id, a
    write that would break a unique constraint throws P2002, one that
    would break a foreign key throws P2003, and a rating that is not a
    number is refused before the database is reached. *)

Module Prisma.

Definition user_findUnique (db : Db) (id : Z) : option User :=
  find (fun u => u_id u =? id) (users db).

Definition user_findUnique_email (db : Db) (email : jsstring) : option User :=
  find (fun u => str_eqb (u_email u) email) (users db).

Definition store_findUnique (db : Db) (id : Z) : option Store :=
  find (fun s => st_id s =? id) (stores db).

(** [where: { storeId_userId: { storeId, userId } }] *)
Definition same_pair (storeId userId : Z) (r : Rating) : bool :=
  (r_storeId r =? storeId) && (r_userId r =? userId).

Definition rating_findUnique (db : Db) (storeId userId : Z) : option Rating :=
  find (same_pair storeId userId) (ratings db).

(** The relation fields. *)
Definition ratings_of_store (db : Db) (storeId : Z) : list Rating :=
  filter (fun r => r_storeId r =? storeId) (ratings db).

Definition ratings_of_user (db : Db) (userId : Z) : list Rating :=
  filter (fun r => r_userId r =? userId) (ratings db).

Definition stores_of_user (db : Db) (userId : Z) : list Store :=
  filter (fun s => st_ownerId s =? userId) (stores db).

Definition set_users (db : Db) (l : list User) : Db :=
  {| users := l; stores := stores db; ratings := ratings db;
     store_seq := store_seq db; rating_seq := rating_seq db |}.

Definition set_stores (db : Db) (l : list Store) : Db :=
  {| users := users db; stores := l; ratings := ratings db;
     store_seq := store_seq db; rating_seq := rating_seq db |}.

Definition set_ratings (db : Db) (l : list Rating) : Db :=
  {| users := users db; stores := stores db; ratings := l;
     store_seq := store_seq db; rating_seq := rating_seq db |}.

(** [prisma.user.update({ where: { id }, data: { name, email, role } })] *)
Definition user_update (db : Db) (id : Z) (name email : jsstring) (role : Role)
  : Result (User * Db) :=
  match user_findUnique db id with
  | None => Throw P2025
  | Some u =>
      if existsb (fun v => str_eqb (u_email v) email && negb (u_id v =? id))
                 (users db)
      then Throw P2002
      else
        let u' := {| u_id := u_id u; u_name := name; u_email := email;
                     u_password := u_password u; u_role := role;
                     u_createdAt := u_createdAt u |} in
        Ok (u', set_users db
                  (map (fun v => if u_id v =? id then u' else v) (users db)))
  end.

(** [prisma.user.delete({ where: { id } })] *)
Definition user_delete (db : Db) (id : Z) : Result Db :=
  match user_findUnique db id with
  | None => Throw P2025
  | Some _ =>
      match stores_of_user db id, ratings_of_user db id with
      | [], [] =>
          Ok (set_users db (filter (fun v => negb (u_id v =? id)) (users db)))
      | _, _ => Throw P2003
      end
  end.

(** [prisma.store.create({ data: { name, address, ownerId } })] *)
Definition store_create (db : Db) (name address : jsstring) (ownerId : Z)
  : Result (Store * Db) :=
  match user_findUnique db ownerId with
  | None => Throw P2003
  | Some _ =>
      let s := {| st_id := store_seq db; st_name := name;
                  st_address := address; st_ownerId := ownerId |} in
      Ok (s, {| users := users db; stores := stores db ++ [s];
                ratings := ratings db; store_seq := store_seq db + 1;
                rating_seq := rating_seq db |})
  end.

(** [prisma.store.update({ where: { id }, data: { name, address, ownerId } })] *)
Definition store_update (db : Db) (id : Z) (name address : jsstring)
  (ownerId : Z) : Result (Store * Db) :=
  match store_findUnique db id with
  | None => Throw P2025
  | Some _ =>
      match user_findUnique db ownerId with
      | None => Throw P2003
      | Some _ =>
          let s := {| st_id := id; st_name := name; st_address := address;
                      st_ownerId := ownerId |} in
          Ok (s, set_stores db
                   (map (fun t => if st_id t =? id then s else t) (stores db)))
      end
  end.

(** [prisma.store.delete({ where: { id } })] *)
Definition store_delete (db : Db) (id : Z) : Result Db :=
  match store_findUnique db id with
  | None => Throw P2025
  | Some _ =>
      match ratings_of_store db id with
      | [] =>
          Ok (set_stores db (filter (fun t => negb (st_id t =? id)) (stores db)))
      | _ => Throw P2003
      end
  end.

(** [prisma.rating.deleteMany({ where: { storeId } })] *)
Definition rating_deleteMany (db : Db) (storeId : Z) : Db :=
  set_ratings db (filter (fun r => negb (r_storeId r =? storeId)) (ratings db)).

(** [prisma.rating.update({ where: { id }, data: { rating } })] *)
Definition rating_update (db : Db) (id : Z) (rating : jsval)
  : Result (Rating * Db) :=
  match as_int rating with
  | None => Throw PrismaValidation
  | Some v =>
      match find (fun r => r_id r =? id) (ratings db) with
      | None => Throw P2025
      | Some r =>
          let r' := {| r_id := id; r_rating := v; r_storeId := r_storeId r;
                       r_userId := r_userId r |} in
          Ok (r', set_ratings db
                    (map (fun t => if r_id t =? id then r' else t) (ratings db)))
      end
  end.

(** [prisma.rating.create({ data: { rating, storeId, userId } })] *)
Definition rating_create (db : Db) (rating : jsval) (storeId userId : Z)
  : Result (Rating * Db) :=
  match as_int rating with
  | None => Throw PrismaValidation
  | Some v =>
      match rating_findUnique db storeId userId with
      | Some _ => Throw P2002
      | None =>
          match store_findUnique db storeId, user_findUnique db userId with
          | Some _, Some _ =>
              let r := {| r_id := rating_seq db; r_rating := v;
                          r_storeId := storeId; r_userId := userId |} in
              Ok (r, {| users := users db; stores := stores db;
                        ratings := ratings db ++ [r];
                        store_seq := store_seq db;
                        rating_seq := rating_seq db + 1 |})
          | _, _ => Throw P2003
          end
      end
  end.

(** A stable insertion sort: [orderBy] on rows in table order. *)
Fixpoint insert_by {A} (le : A -> A -> bool) (x : A) (l : list A) : list A :=
  match l with
  | [] => [x]
  | y :: l' => if le x y then x :: l else y :: insert_by le x l'
  end.

Definition sort_by {A} (le : A -> A -> bool) (l : list A) : list A :=
  fold_right (insert_by le) [] l.

End Prisma.

(** ** Requests and responses *)

(** The payload of a token: [{ id, role }] with the [iat] and [exp]
    claims [jwt.sign] adds, in seconds. *)
Record Token := {
  tok_id : Z;
  tok_role : Role;
  tok_iat : Z;
  tok_exp : Z
}.

(** The Authorization header: absent, something [jwt.verify] rejects
    whatever the time (no second word, a malformed token, a wrong
    signature), or a token signed with [JWT_SECRET]. *)
Inductive AuthHeader :=
| NoHeader
| BadToken
| Bearer (t : Token).

(** The fields of a user a query selects. *)
Record UserView := {
  v_id : option Z;
  v_name : jsstring;
  v_email : option jsstring;
  v_role : option Role;
  v_createdAt : option Z
}.

Definition select_id_name (u : User) : UserView :=
  {| v_id := Some (u_id u); v_name := u_name u; v_email := None;
     v_role := None; v_createdAt := None |}.

Definition select_id_name_email (u : User) : UserView :=
  {| v_id := Some (u_id u); v_name := u_name u; v_email := Some (u_email u);
     v_role := None; v_createdAt := None |}.

Definition select_id_name_email_role (u : User) : UserView :=
  {| v_id := Some (u_id u); v_name := u_name u; v_email := Some (u_email u);
     v_role := Some (u_role u); v_createdAt := None |}.

Definition select_all_but_password (u : User) : UserView :=
  {| v_id := Some (u_id u); v_name := u_name u; v_email := Some (u_email u);
     v_role := Some (u_role u); v_createdAt := Some (u_createdAt u) |}.

(** A store with [include: { owner }]. *)
Record StoreWithOwner := {
  so_store : Store;
  so_owner : option UserView
}.

(** An entry of a store listing: the store, its included owner and
    ratings (each with its included user), and the aggregate. *)
Record StoreListing := {
  l_store : Store;
  l_owner : option UserView;
  l_ratings : list (Rating * option UserView);
  averageRating : Q;
  totalRatings : Z
}.

Record TopStore := {
  top_id : Z;
  top_name : jsstring;
  top_averageRating : Q;
  top_totalRatings : Z;
  top_owner : jsstring
}.

Record Dashboard := {
  totalUsers : Z;
  totalStores : Z;
  d_totalRatings : Z;
  usersByRole : list (Role * Z);
  topStores : list TopStore
}.

Inductive Body :=
| Error (msg : string)
| ErrorOf (e : Exn)
| Message (msg : string)
| MessageUser (msg : string) (u : UserView)
| MessageStore (msg : string) (s : StoreWithOwner)
| TokenUser (t : Token) (u : UserView)
| OneStore (s : StoreWithOwner)
| OneRating (r : Rating)
| Listing (l : list StoreListing)
| Stats (d : Dashboard).

Record Response := {
  status : Z;
  body : Body
}.

(** [res.status(c).json({ error: msg })] and [res.json(b)]. *)
Definition error (c : Z) (msg : string) : Response :=
  {| status := c; body := Error msg |}.

Definition json (b : Body) : Response := {| status := 200; body := b |}.

(** ** Middleware *)

(** [jwt.verify]: a signed token is rejected from its [exp] on. *)
Definition jwt_verify (h : AuthHeader) (now : Z) : option Token :=
  match h with
  | Bearer t => if now <? tok_exp t then Some t else None
  | _ => None
  end.

(** [jwt.sign({ id, role }, JWT_SECRET, { expiresIn: "24h" })] *)
Definition jwt_sign (id : Z) (role : Role) (now : Z) : Token :=
  {| tok_id := id; tok_role := role; tok_iat := now; tok_exp := now + 86400 |}.

(** Each middleware answers itself ([inl]) or calls [next] with
    [req.user] ([inr]). *)
Definition authMiddleware (h : AuthHeader) (now : Z) : Response + Token :=
  match h with
  | NoHeader => inl (error 401 "No token provided")
  | _ =>
      match jwt_verify h now with
      | None => inl (error 403 "Invalid token")
      | Some decoded => inr decoded
      end
  end.

Definition adminMiddleware (user : Token) : Response + Token :=
  if negb (role_eqb (tok_role user) ADMIN)
  then inl (error 403 "Admin access required")
  else inr user.

Definition ownerMiddleware (user : Token) : Response + Token :=
  if negb (role_eqb (tok_role user) OWNER)
  then inl (error 403 "Store owner access required")
  else inr user.

(** The routes of the application and the middleware each is
    registered with. *)
Inductive Route :=
| PostSignup | PostLogin | PutUsersPassword
| GetAdminUsers | PutAdminUsersId | DeleteAdminUsersId
| PostStores | GetAdminStores | PutAdminStoresId | DeleteAdminStoresId
| PostStoresIdRate | GetStores | GetAdminDashboard | GetOwnerStores.

Inductive Chain := NoMiddleware | Auth | AuthAdmin | AuthOwner.

Definition middleware (r : Route) : Chain :=
  match r with
  | PostLogin | GetStores => NoMiddleware
  | PutUsersPassword | PostStoresIdRate => Auth
  | GetOwnerStores => AuthOwner
  | _ => AuthAdmin
  end.

(** What the handler of a route finds in [req.user]. *)
Definition ReqUser (c : Chain) : Type :=
  match c with
  | NoMiddleware => unit
  | _ => Token
  end.

(** Running the chain of a route: the response of a middleware, or the
    call of the handler. *)
Definition run_chain (c : Chain) (h : AuthHeader) (now : Z)
  : Response + ReqUser c :=
  match c return Response + ReqUser c with
  | NoMiddleware => inr tt
  | Auth => authMiddleware h now
  | AuthAdmin =>
      match authMiddleware h now with
      | inl r => inl r
      | inr u => adminMiddleware u
      end
  | AuthOwner =>
      match authMiddleware h now with
      | inl r => inl r
      | inr u => ownerMiddleware u
      end
  end.

(** [app.METHOD(path, ...middleware, handler)] *)
Definition route (r : Route) (h : AuthHeader) (now : Z)
  (handler : ReqUser (middleware r) -> Db -> Response * Db) (db : Db)
  : Response * Db :=
  match run_chain (middleware r) h now with
  | inl resp => (resp, db)
  | inr user => handler user db
  end.

(** [try { ... } catch (err) { res.status(500).json({ error: err.message }) }] *)
Definition try_catch (m : M Response) (db : Db) : Response * Db :=
  match m db with
  | (Ok resp, db') => (resp, db')
  | (Throw e, db') => ({| status := 500; body := ErrorOf e |}, db')
  end.

(** The same with [if (err.code === 'P2002')] first. *)
Definition try_catch_P2002 (m : M Response) (db : Db) : Response * Db :=
  match m db with
  | (Ok resp, db') => (resp, db')
  | (Throw P2002, db') => (error 400 "Email already exists", db')
  | (Throw e, db') => ({| status := 500; body := ErrorOf e |}, db')
  end.

(** ** Route handlers

    One function per route the statements below are about, named after
    the method and the path.  A request is its Authorization header, the
    time it arrives, the [parseInt] of its path parameter and the fields
    of its body; names, addresses, emails and roles are strings, as the
    columns they are written to, and a rating and an ownerId are any
    JSON value. *)

Import Prisma.

(** [parseInt(req.params.id)] is NaN ([None]) for a parameter that does
    not start with digits; the Prisma call it is passed to throws. *)
Definition int_arg (id : option Z) : M Z :=
  match id with
  | Some i => ret i
  | None => throw PrismaValidation
  end.

(** A field of the body passed where an Int is expected. *)
Definition int_field (v : jsval) : M Z :=
  match as_int v with
  | Some i => ret i
  | None => throw PrismaValidation
  end.

(** The values of an Int column. *)
Definition int32 (i : Z) : bool := (- 2 ^ 31 <=? i) && (i <? 2 ^ 31).

(** [findUnique({ where: { id } })] with an id of the request.  The ids
    of the rows are values of the Int column; an integer beyond 32 bits
    is the id of no row, and there Prisma throws where an integer of
    the column would find nothing. *)
Definition where_id {A} (found : Db -> Z -> option A) (id : Z)
  : M (option A) :=
  fun db =>
    match found db id with
    | Some row => (Ok (Some row), db)
    | None =>
        if int32 id then (Ok None, db) else (Throw PrismaValidation, db)
    end.

(** [update] and [delete] with an id of the request: beyond 32 bits the
    refusal of the id takes the place of P2025. *)
Definition on_int_column {A} (id : Z) (r : Result A) : Result A :=
  match r with
  | Throw P2025 => if int32 id then Throw P2025 else Throw PrismaValidation
  | _ => r
  end.

(** What the database decides in a listing: the match of
    [contains: search, mode: 'insensitive'] and the order of
    [orderBy: { name: 'asc' }], both by its collation. *)
Record Collation := {
  contains_insensitive : jsstring -> jsstring -> bool;
  name_le : jsstring -> jsstring -> bool
}.

(** [store.ratings.reduce((a, r) => a + r.rating, 0)]: a sum of
    integers, exact in doubles below [2^53]. *)
Definition sum_ratings (rs : list Rating) : Z :=
  fold_left (fun a r => a + r_rating r) rs 0.

(** [parseFloat(avg.toFixed(1))] of the handlers' [avg]. *)
Definition average (rs : list Rating) : Q :=
  let len := Z.of_nat (List.length rs) in
  let avg := if 0 <? len then fdiv (sum_ratings rs) len else 0%Q in
  parseFloat_toFixed1 avg.

Definition include_user (sel : User -> UserView) (db : Db) (r : Rating)
  : Rating * option UserView :=
  (r, option_map sel (user_findUnique db (r_userId r))).

Definition include_owner (db : Db) (s : Store) : option UserView :=
  option_map select_id_name_email (user_findUnique db (st_ownerId s)).

(** The [stores.map] of the three listings. *)
Definition listing (sel : User -> UserView) (owner : bool) (db : Db)
  (s : Store) : StoreListing :=
  let rs := ratings_of_store db (st_id s) in
  {| l_store := s;
     l_owner := if owner then include_owner db s else None;
     l_ratings := map (include_user sel db) rs;
     averageRating := average rs;
     totalRatings := Z.of_nat (List.length rs) |}.

(** The [whereClause] of a search: an empty [search] is falsy. *)
Definition where_search (c : Collation) (search : option jsstring)
  (s : Store) : bool :=
  match search with
  | None | Some [] => true
  | Some q =>
      contains_insensitive c (st_name s) q
      || contains_insensitive c (st_address s) q
  end.

Definition store_findMany_search (c : Collation) (search : option jsstring)
  (db : Db) : list Store :=
  sort_by (fun a b => name_le c (st_name a) (st_name b))
          (filter (where_search c search) (stores db)).

(** POST /login, with [bcrypt.compare] as [compare]. *)
Definition post_login (compare : jsstring -> jsstring -> bool)
  (now : Z) (email password : jsstring) : Db -> Response * Db :=
  route PostLogin NoHeader now (fun _ =>
    try_catch (
      if negb (validateEmail email) then ret (error 400 "Invalid email format")
      else
        await user <- read (fun db => user_findUnique_email db email);
        match user with
        | None => ret (error 400 "User not found")
        | Some user =>
            if negb (compare password (u_password user))
            then ret (error 400 "Invalid password")
            else
              let token := jwt_sign (u_id user) (u_role user) now in
              ret (json (TokenUser token (select_id_name_email_role user)))
        end)).

(** PUT /admin/users/:id *)
Definition put_admin_users_id (h : AuthHeader) (now : Z) (id : option Z)
  (name email role : jsstring) : Db -> Response * Db :=
  route PutAdminUsersId h now (fun _ =>
    try_catch_P2002 (
      if negb (validateName name)
      then ret (error 400 "Name must be 20-60 characters")
      else if negb (validateEmail email)
      then ret (error 400 "Invalid email format")
      else
        match role_of_string role with
        | None => ret (error 400 "Invalid role")
        | Some role =>
            await userId <- int_arg id;
            await user <- write (fun db =>
              on_int_column userId (user_update db userId name email role));
            ret (json (MessageUser "User updated" (select_all_but_password user)))
        end)).

(** DELETE /admin/users/:id *)
Definition delete_admin_users_id (h : AuthHeader) (now : Z) (id : option Z)
  : Db -> Response * Db :=
  route DeleteAdminUsersId h now (fun _ =>
    try_catch (
      await userId <- int_arg id;
      await user <- where_id (fun db i =>
        option_map (fun u => (u, (stores_of_user db i, ratings_of_user db i)))
                   (user_findUnique db i)) userId;
      match user with
      | None => throw TypeError
      | Some (_, (user_stores, user_ratings)) =>
          if (0 <? Z.of_nat (List.length user_stores))
             || (0 <? Z.of_nat (List.length user_ratings))
          then ret (error 400 "Cannot delete user with stores or ratings")
          else
            await _ <- write (fun db =>
              match user_delete db userId with
              | Ok db' => Ok (tt, db')
              | Throw e => Throw e
              end);
            ret (json (Message "User deleted successfully"))
      end)).

(** The owner check of the two store writes:
    [!owner || owner.role !== "OWNER"]. *)
Definition not_an_owner (owner : option User) : bool :=
  match owner with
  | None => true
  | Some o => negb (role_eqb (u_role o) OWNER)
  end.

(** POST /stores *)
Definition post_stores (h : AuthHeader) (now : Z)
  (name address : jsstring) (ownerId : jsval) : Db -> Response * Db :=
  route PostStores h now (fun _ =>
    try_catch (
      if negb (validateName name)
      then ret (error 400 "Name must be 20-60 characters")
      else if negb (validateAddress address)
      then ret (error 400 "Address must be up to 400 characters")
      else
        await ownerId <- int_field ownerId;
        await owner <- where_id user_findUnique ownerId;
        if not_an_owner owner
        then ret (error 400 "Invalid owner ID or user is not a store owner")
        else
          await store <- write (fun db => store_create db name address ownerId);
          await owner <- read (fun db => include_owner db store);
          ret (json (OneStore {| so_store := store; so_owner := owner |})))).

(** GET /admin/stores *)
Definition get_admin_stores (c : Collation) (h : AuthHeader) (now : Z)
  (search : option jsstring) : Db -> Response * Db :=
  route GetAdminStores h now (fun _ =>
    try_catch (
      await result <- read (fun db =>
        map (listing select_id_name true db) (store_findMany_search c search db));
      ret (json (Listing result)))).

(** PUT /admin/stores/:id *)
Definition put_admin_stores_id (h : AuthHeader) (now : Z) (id : option Z)
  (name address : jsstring) (ownerId : jsval) : Db -> Response * Db :=
  route PutAdminStoresId h now (fun _ =>
    try_catch (
      if negb (validateName name)
      then ret (error 400 "Name must be 20-60 characters")
      else if negb (validateAddress address)
      then ret (error 400 "Address must be up to 400 characters")
      else
        await ownerId <- int_field ownerId;
        await owner <- where_id user_findUnique ownerId;
        if not_an_owner owner
        then ret (error 400 "Invalid owner ID or user is not a store owner")
        else
          await storeId <- int_arg id;
          await store <- write (fun db =>
            on_int_column storeId
              (store_update db storeId name address ownerId));
          await owner <- read (fun db => include_owner db store);
          ret (json (MessageStore "Store updated"
                       {| so_store := store; so_owner := owner |})))).

(** DELETE /admin/stores/:id.  Beyond 32 bits no rating has the storeId,
    and the refusal of the id is that of the delete of the store. *)
Definition delete_admin_stores_id (h : AuthHeader) (now : Z) (id : option Z)
  : Db -> Response * Db :=
  route DeleteAdminStoresId h now (fun _ =>
    try_catch (
      await storeId <- int_arg id;
      await _ <- write (fun db => Ok (tt, rating_deleteMany db storeId));
      await _ <- write (fun db =>
        match on_int_column storeId (store_delete db storeId) with
        | Ok db' => Ok (tt, db')
        | Throw e => Throw e
        end);
      ret (json (Message "Store deleted successfully")))).

(** [!rating || rating < 1 || rating > 5] *)
Definition rating_rejected (rating : jsval) : bool :=
  not_ rating || lt_num rating 1 || gt_num rating 5.

(** POST /stores/:id/rate: the role is checked before the [try]. *)
Definition post_stores_id_rate (h : AuthHeader) (now : Z) (id : option Z)
  (rating : jsval) : Db -> Response * Db :=
  route PostStoresIdRate h now (fun user =>
    if negb (role_eqb (tok_role user) USER)
    then fun db => (error 403 "Only normal users can rate stores", db)
    else
      try_catch (
        if rating_rejected rating
        then ret (error 400 "Rating must be between 1 and 5")
        else
          await storeId <- int_arg id;
          await store <- where_id store_findUnique storeId;
          match store with
          | None => ret (error 404 "Store not found")
          | Some _ =>
              await existingRating <- read (fun db =>
                rating_findUnique db storeId (tok_id user));
              match existingRating with
              | Some existingRating =>
                  await updatedRating <- write (fun db =>
                    rating_update db (r_id existingRating) rating);
                  ret (json (OneRating updatedRating))
              | None =>
                  await newRating <- write (fun db =>
                    rating_create db rating storeId (tok_id user));
                  ret (json (OneRating newRating))
              end
          end)).

(** GET /stores *)
Definition get_stores (c : Collation) (now : Z) (search : option jsstring)
  : Db -> Response * Db :=
  route GetStores NoHeader now (fun _ =>
    try_catch (
      await result <- read (fun db =>
        map (listing select_id_name true db) (store_findMany_search c search db));
      ret (json (Listing result)))).

(** [prisma.user.groupBy({ by: ['role'], _count: { role: true } })] read
    into [roleCounts]: a role without users has no group. *)
Definition count_role (db : Db) (r : Role) : Z :=
  Z.of_nat (List.length (filter (fun u => role_eqb (u_role u) r) (users db))).

Definition roleCounts (db : Db) : list (Role * Z) :=
  filter (fun p => 0 <? snd p)
         (map (fun r => (r, count_role db r)) [USER; OWNER; ADMIN]).

(** [orderBy: { ratings: { _count: 'desc' } }, take: 5].  Among stores
    with as many ratings the order is the database's own: [rank] is
    the place it gives each store. *)
Definition count_ratings (db : Db) (s : Store) : Z :=
  Z.of_nat (List.length (ratings_of_store db (st_id s))).

Definition before_in_top (rank : Store -> Z) (db : Db) (a b : Store) : bool :=
  (count_ratings db b <? count_ratings db a)
  || ((count_ratings db a =? count_ratings db b) && (rank a <=? rank b)).

Definition store_findMany_top (rank : Store -> Z) (db : Db) : list Store :=
  firstn 5 (sort_by (before_in_top rank db) (stores db)).

(** The [topStores.map]: [store.owner.name] throws on a store without
    owner. *)
Definition topStoreWithAvg (db : Db) (s : Store) : Result TopStore :=
  let rs := ratings_of_store db (st_id s) in
  match user_findUnique db (st_ownerId s) with
  | None => Throw TypeError
  | Some owner =>
      Ok {| top_id := st_id s; top_name := st_name s;
            top_averageRating := average rs;
            top_totalRatings := Z.of_nat (List.length rs);
            top_owner := u_name owner |}
  end.

Fixpoint map_result {A B} (f : A -> Result B) (l : list A) : Result (list B) :=
  match l with
  | [] => Ok []
  | x :: l' =>
      match f x with
      | Throw e => Throw e
      | Ok y =>
          match map_result f l' with
          | Throw e => Throw e
          | Ok ys => Ok (y :: ys)
          end
      end
  end.

(** GET /admin/dashboard *)
Definition get_admin_dashboard (rank : Store -> Z) (h : AuthHeader) (now : Z)
  : Db -> Response * Db :=
  route GetAdminDashboard h now (fun _ =>
    try_catch (
      await totalUsers <- read (fun db => Z.of_nat (List.length (users db)));
      await totalStores <- read (fun db => Z.of_nat (List.length (stores db)));
      await totalRatings <- read (fun db => Z.of_nat (List.length (ratings db)));
      await roleCounts <- read roleCounts;
      await topStores <- read (store_findMany_top rank);
      await topStoresWithAvg <- (fun db =>
        (map_result (topStoreWithAvg db) topStores, db));
      ret (json (Stats {| totalUsers := totalUsers;
                          totalStores := totalStores;
                          d_totalRatings := totalRatings;
                          usersByRole := roleCounts;
                          topStores := topStoresWithAvg |})))).

(** GET /owner/stores *)
Definition get_owner_stores (h : AuthHeader) (now : Z) : Db -> Response * Db :=
  route GetOwnerStores h now (fun user =>
    try_catch (
      await result <- read (fun db =>
        map (listing select_id_name_email false db)
            (stores_of_user db (tok_id user)));
      ret (json (Listing result)))).

(** ** The routes of the users

    Signup, the change of password and the list of users.  The id the
    database gives a new user and the hash [bcrypt.hash] computes are
    inputs of the signup; [bcrypt.compare] is an input wherever a
    password is checked. *)

(** The class [[A-Z]]. *)
Definition is_upper (c : Z) : bool := (65 <=? c) && (c <=? 90).

(** The class of [hasSpecialChar], by code unit: ! @ # $ % ^ & * ( ) ,
    . ? double quote : { } | < and >. *)
Definition is_special (c : Z) : bool :=
  existsb (Z.eqb c)
    [33; 64; 35; 36; 37; 94; 38; 42; 40; 41; 44; 46; 63; 34; 58; 123; 125;
     124; 60; 62].

(** [password && password.length >= 8 && password.length <= 16
     && hasUpperCase && hasSpecialChar] *)
Definition validatePassword (password : jsstring) : bool :=
  let hasUpperCase := existsb is_upper password in
  let hasSpecialChar := existsb is_special password in
  let n := Z.of_nat (List.length password) in
  negb (n =? 0) && (8 <=? n) && (n <=? 16) && hasUpperCase && hasSpecialChar.

(** [prisma.user.create({ data: { name, email, password, role } })], with
    the id and the creation time the database fills in. *)
Definition user_create (db : Db) (id createdAt : Z) (name email : jsstring)
  (password : jsstring) (role : Role) : Result (User * Db) :=
  if existsb (fun v => str_eqb (u_email v) email) (users db)
  then Throw P2002
  else
    let u := {| u_id := id; u_name := name; u_email := email;
                u_password := password; u_role := role;
                u_createdAt := createdAt |} in
    Ok (u, set_users db (users db ++ [u])).

(** [prisma.user.update({ where: { id }, data: { password } })] *)
Definition user_update_password (db : Db) (id : Z) (password : jsstring)
  : Result (User * Db) :=
  match user_findUnique db id with
  | None => Throw P2025
  | Some u =>
      let u' := {| u_id := u_id u; u_name := u_name u; u_email := u_email u;
                   u_password := password; u_role := u_role u;
                   u_createdAt := u_createdAt u |} in
      Ok (u', set_users db
                (map (fun v => if u_id v =? id then u' else v) (users db)))
  end.

(** POST /signup *)
Definition post_signup (hash : jsstring -> jsstring) (new_id : Z)
  (h : AuthHeader) (now : Z) (name email password role : jsstring)
  : Db -> Response * Db :=
  route PostSignup h now (fun _ =>
    try_catch_P2002 (
      if negb (validateName name)
      then ret (error 400 "Name must be 20-60 characters")
      else if negb (validateEmail email)
      then ret (error 400 "Invalid email format")
      else if negb (validatePassword password)
      then ret (error 400
        "Password must be 8-16 characters with uppercase and special character")
      else
        match role_of_string role with
        | None => ret (error 400 "Invalid role")
        | Some role =>
            let hashedPassword := hash password in
            await user <- write (fun db =>
              user_create db new_id now name email hashedPassword role);
            ret (json (MessageUser "User created"
                         (select_id_name_email_role user)))
        end)).

(** PUT /users/password: [user.password] throws on a user that is gone. *)
Definition put_users_password (hash : jsstring -> jsstring)
  (compare : jsstring -> jsstring -> bool) (h : AuthHeader) (now : Z)
  (currentPassword newPassword : jsstring) : Db -> Response * Db :=
  route PutUsersPassword h now (fun req_user =>
    try_catch (
      if negb (validatePassword newPassword)
      then ret (error 400
        "Password must be 8-16 characters with uppercase and special character")
      else
        await user <- read (fun db => user_findUnique db (tok_id req_user));
        match user with
        | None => throw TypeError
        | Some user =>
            if negb (compare currentPassword (u_password user))
            then ret (error 400 "Current password is incorrect")
            else
              let hashedPassword := hash newPassword in
              await _ <- write (fun db =>
                user_update_password db (tok_id req_user) hashedPassword);
              ret (json (Message "Password updated successfully"))
        end)).

(** A row of GET /admin/users: the selected fields and [_count]. *)
Record UserRow := {
  row_user : UserView;
  count_ratings_of : Z;
  count_stores_of : Z
}.

(** The [whereClause] of the list of users: an empty [search] is falsy,
    and so is a [role] that is empty or not one of the three. *)
Definition where_users (c : Collation) (search role : option jsstring)
  (u : User) : bool :=
  match search with
  | None | Some [] => true
  | Some q => contains_insensitive c (u_name u) q
  end
  && match role with
     | None => true
     | Some r =>
         match role_of_string r with
         | Some r' => role_eqb (u_role u) r'
         | None => true
         end
     end.

Definition user_row (db : Db) (u : User) : UserRow :=
  {| row_user := select_all_but_password u;
     count_ratings_of := Z.of_nat (List.length (ratings_of_user db (u_id u)));
     count_stores_of := Z.of_nat (List.length (stores_of_user db (u_id u))) |}.

(** GET /admin/users: the answer of a middleware, or the array. *)
Definition get_admin_users (c : Collation) (h : AuthHeader) (now : Z)
  (search role : option jsstring) (db : Db)
  : (Response + list UserRow) * Db :=
  match run_chain (middleware GetAdminUsers) h now with
  | inl resp => (inl resp, db)
  | inr _ =>
      (inr (map (user_row db)
              (sort_by (fun a b => name_le c (u_name a) (u_name b))
                 (filter (where_users c search role) (users db)))), db)
  end.

(** ** Invariants of the database *)

Definition pair_of (r : Rating) : Z * Z := (r_storeId r, r_userId r).

(** What the schema's constraints and sequences guarantee of every
    state: primary keys, the unique email, the unique (storeId, userId),
    the three foreign keys, and ids below the sequences. *)
Record db_ok (db : Db) : Prop := {
  ok_user_ids : NoDup (map u_id (users db));
  ok_emails : NoDup (map u_email (users db));
  ok_store_ids : NoDup (map st_id (stores db));
  ok_rating_ids : NoDup (map r_id (ratings db));
  ok_pairs : NoDup (map pair_of (ratings db));
  ok_owner : forall s, In s (stores db) ->
             user_findUnique db (st_ownerId s) <> None;
  ok_rating_store : forall r, In r (ratings db) ->
                    store_findUnique db (r_storeId r) <> None;
  ok_rating_user : forall r, In r (ratings db) ->
                   user_findUnique db (r_userId r) <> None;
  ok_store_seq : forall s, In s (stores db) -> st_id s < store_seq db;
  ok_rating_seq : forall r, In r (ratings db) -> r_id r < rating_seq db
}.

(** The data model's range of a rating. *)
Definition ratings_in_range (db : Db) : Prop :=
  Forall (fun r => 1 <= r_rating r <= 5) (ratings db).

(** ** Vocabulary of the statements

    What a statement says of a store, it says of the tables: the
    ratings of a store are the rows of the ratings table whose storeId
    is the id of the store, and the users of a role are the rows of the
    users table with that role.  None of this is taken from the
    handlers. *)

Fixpoint sumZ (l : list Z) : Z :=
  match l with
  | [] => 0
  | x :: l' => x + sumZ l'
  end.

(** The values of the ratings of a store. *)
Definition values_of (db : Db) (storeId : Z) : list Z :=
  map r_rating (filter (fun r => Z.eqb (r_storeId r) storeId) (ratings db)).

(** The number of ratings of a store. *)
Definition count_of (db : Db) (s : Store) : Z :=
  Z.of_nat (List.length (values_of db (st_id s))).

(** [sum(values) / count], exactly. *)
Definition mean (values : list Z) : Q :=
  Qmake (sumZ values) (Z.to_pos (Z.of_nat (List.length values))).

(** What a response reports of a store whose ratings have these values:
    their number, and their mean rounded to one decimal, 0 without
    ratings. *)
Definition is_aggregate (values : list Z) (avg : Q) (total : Z) : Prop :=
  total = Z.of_nat (List.length values)
  /\ (values = [] -> avg == 0)%Q
  /\ (values <> [] ->
      (exists n, avg = Qmake n 10)
      /\ (Qabs (avg - mean values) <= 1 # 20)%Q).

Definition aggregate_of (db : Db) (e : StoreListing) : Prop :=
  is_aggregate (values_of db (st_id (l_store e)))
               (averageRating e) (totalRatings e).

(** The stores a listing is asked for: all of them without a search or
    with an empty one, else those the database matches by name or by
    address. *)
Definition asked_for (c : Collation) (search : option jsstring) (s : Store)
  : bool :=
  match search with
  | Some (x :: q) =>
      contains_insensitive c (st_name s) (x :: q)
      || contains_insensitive c (st_address s) (x :: q)
  | _ => true
  end.

(** The stores of an owner, in the order of the table. *)
Definition owned_by (db : Db) (userId : Z) : list Store :=
  filter (fun s => Z.eqb (st_ownerId s) userId) (stores db).

(** A reported top store against the store it is made from. *)
Definition top_of (db : Db) (s : Store) (t : TopStore) : Prop :=
  top_id t = st_id s
  /\ top_name t = st_name s
  /\ is_aggregate (values_of db (st_id s))
                  (top_averageRating t) (top_totalRatings t).

(** The users a list is asked for: those the database matches by name
    to a search that is not empty, of the role asked for when it is one
    of the three. *)
Definition user_asked_for (c : Collation) (search role : option jsstring)
  (u : User) : Prop :=
  match search with
  | Some (x :: q) => contains_insensitive c (u_name u) (x :: q) = true
  | _ => True
  end
  /\ (role = Some (lit "USER") -> u_role u = USER)
  /\ (role = Some (lit "OWNER") -> u_role u = OWNER)
  /\ (role = Some (lit "ADMIN") -> u_role u = ADMIN).

(** The order of the top stores: more ratings first, and among stores
    with as many ratings the place [rank] the database gives them. *)
Definition ranked_before (rank : Store -> Z) (db : Db) (a b : Store) : Prop :=
  count_of db b < count_of db a
  \/ (count_of db a = count_of db b /\ rank a <= rank b).

(** The number of users of a role. *)
Definition role_dec (a b : Role) : {a = b} + {a <> b}.
Proof. decide equality. Defined.

Definition users_with_role (db : Db) (r : Role) : Z :=
  Z.of_nat (count_occ role_dec (map u_role (users db)) r).

(** The invariant of the reachable states: the constraints of the
    schema and the range of the ratings. *)
Definition state_ok (db : Db) : Prop := db_ok db /\ ratings_in_range db.

Definition preserves {A} (m : M A) : Prop :=
  forall db, state_ok db -> state_ok (snd (m db)).

(** The role a middleware chain asks for, and whether the chain answered
    itself instead of calling the handler. *)
Definition required_role (c : Chain) : option Role :=
  match c with
  | AuthAdmin => Some ADMIN
  | AuthOwner => Some OWNER
  | _ => None
  end.

Definition answered {T} (x : Response + T) : bool :=
  match x with
  | inl _ => true
  | inr _ => false
  end.

(** The sum of the counts of [usersByRole]. *)
Fixpoint sum_counts (l : list (Role * Z)) : Z :=
  match l with
  | [] => 0
  | (_, n) :: l' => n + sum_counts l'
  end.

(** ** Sample data *)

Module Sample.

Definition admin : User :=
  {| u_id := 1; u_name := lit "Alice Administrator Example";
     u_email := lit "alice@example.com"; u_password := lit "Admin#2024";
     u_role := ADMIN; u_createdAt := 0 |}.

Definition owner : User :=
  {| u_id := 2; u_name := lit "Oliver Owner of Many Stores";
     u_email := lit "oliver@example.com"; u_password := lit "Owner#2024";
     u_role := OWNER; u_createdAt := 0 |}.

Definition shopper : User :=
  {| u_id := 3; u_name := lit "Ursula Usual Shopper Example";
     u_email := lit "ursula@example.com"; u_password := lit "Shop#2024";
     u_role := USER; u_createdAt := 0 |}.

Definition bakery : Store :=
  {| st_id := 1; st_name := lit "The Corner Bakery and Cafe";
     st_address := lit "1 Main Street"; st_ownerId := 2 |}.

(** One store and no rating yet. *)
Definition db0 : Db :=
  {| users := [admin; owner; shopper]; stores := [bakery]; ratings := [];
     store_seq := 2; rating_seq := 1 |}.

(** The store rated 5 by the shopper. *)
Definition db1 : Db :=
  {| users := [admin; owner; shopper]; stores := [bakery];
     ratings := [{| r_id := 1; r_rating := 5; r_storeId := 1; r_userId := 3 |}];
     store_seq := 2; rating_seq := 2 |}.

Definition grocer : Store :=
  {| st_id := 2; st_name := lit "Greengrocer on the Square";
     st_address := lit "2 Market Square"; st_ownerId := 2 |}.

(** Two stores: the grocer without ratings, the bakery rated 5, 4 and 3. *)
Definition db2 : Db :=
  {| users := [admin; owner; shopper]; stores := [grocer; bakery];
     ratings := [{| r_id := 1; r_rating := 5; r_storeId := 1; r_userId := 3 |};
                 {| r_id := 2; r_rating := 4; r_storeId := 1; r_userId := 1 |};
                 {| r_id := 3; r_rating := 3; r_storeId := 1; r_userId := 2 |}];
     store_seq := 3; rating_seq := 4 |}.

(** Tokens of a login at time 0, and a later time within their day. *)
Definition admin_token : Token := jwt_sign 1 ADMIN 0.
Definition owner_token : Token := jwt_sign 2 OWNER 0.
Definition shopper_token : Token := jwt_sign 3 USER 0.
Definition noon : Z := 43200.

(** A new user, and stand-ins for [bcrypt.hash] and [bcrypt.compare]. *)
Definition newcomer_name : jsstring := lit "Nadia Newcomer of the Town".
Definition newcomer_email : jsstring := lit "nadia@example.com".
Definition newcomer_password : jsstring := lit "Abcdefg!".
Definition hash (password : jsstring) : jsstring := 104 :: 58 :: password.
Definition compare (password hashed : jsstring) : bool :=
  str_eqb (hash password) hashed.

(** Ratings with the given values. *)
Definition rated (values : list Z) : list Rating :=
  map (fun v => {| r_id := 0; r_rating := v; r_storeId := 1; r_userId := 0 |})
      values.

(** A collation: exact containment of the search as a prefix of a
    suffix, and the order of the lengths. *)
Fixpoint prefix (q s : jsstring) : bool :=
  match q, s with
  | [], _ => true
  | x :: q', y :: s' => (x =? y) && prefix q' s'
  | _ :: _, [] => false
  end.

Fixpoint contains (s q : jsstring) : bool :=
  prefix q s || match s with [] => false | _ :: s' => contains s' q end.

Definition collation : Collation :=
  {| contains_insensitive := contains;
     name_le := fun a b => (List.length a <=? List.length b)%nat |}.

End Sample.

(** ** Theorems *)

Section Middleware.

Variables (h : AuthHeader) (now : Z) (user : Token).
Hypothesis Hauth : authMiddleware h now = inr user.

Lemma run_auth : run_chain Auth h now = inr user.
Proof. exact Hauth. Qed.

Lemma run_admin :
  tok_role user = ADMIN -> run_chain AuthAdmin h now = inr user.
Proof.
  intros Hr. cbn. rewrite Hauth. unfold adminMiddleware. now rewrite Hr.
Qed.

Lemma run_owner :
  tok_role user = OWNER -> run_chain AuthOwner h now = inr user.
Proof.
  intros Hr. cbn. rewrite Hauth. unfold ownerMiddleware. now rewrite Hr.
Qed.

End Middleware.

Section WhereId.

Context {A : Type} (found : Db -> Z -> option A) (id : Z) (db : Db).

Lemma where_id_found (row : A) :
  found db id = Some row -> where_id found id db = (Ok (Some row), db).
Proof. intros H. unfold where_id. now rewrite H. Qed.

Lemma where_id_missing :
  found db id = None -> int32 id = true ->
  where_id found id db = (Ok None, db).
Proof. intros H Hi. unfold where_id. now rewrite H, Hi. Qed.

Lemma where_id_refused :
  found db id = None -> int32 id = false ->
  where_id found id db = (Throw PrismaValidation, db).
Proof. intros H Hi. unfold where_id. now rewrite H, Hi. Qed.

End WhereId.

Lemma role_eqb_eq (a b : Role) : role_eqb a b = true <-> a = b.
Proof. destruct a, b; cbn; split; congruence. Qed.

Lemma role_eqb_neq (a b : Role) : role_eqb a b = false <-> a <> b.
Proof. destruct a, b; cbn; split; congruence. Qed.

(** The role check of the rating route, for a caller that passed
    [authMiddleware]. *)
Lemma rate_denied (h : AuthHeader) (now : Z) (user : Token) :
  authMiddleware h now = inr user ->
  tok_role user <> USER ->
  forall db id rating,
    post_stores_id_rate h now id rating db
    = (error 403 "Only normal users can rate stores", db).
Proof.
  intros Hauth Hr db id rating. unfold post_stores_id_rate, route.
  cbn [middleware]. rewrite (run_auth _ _ _ Hauth).
  apply role_eqb_neq in Hr. now rewrite Hr.
Qed.

Lemma rate_403_iff (h : AuthHeader) (now : Z) (user : Token) :
  authMiddleware h now = inr user ->
  forall db id rating,
    status (fst (post_stores_id_rate h now id rating db)) = 403
    <-> tok_role user <> USER.
Proof.
  intros Hauth db id rating. split.
  - intros H403 Hr. revert H403.
    unfold post_stores_id_rate, route. cbn [middleware].
    rewrite (run_auth _ _ _ Hauth). rewrite Hr. cbn [role_eqb negb].
    unfold try_catch.
    destruct rating_rejected; [cbn; discriminate|].
    destruct id as [i|]; [|cbn; discriminate].
    cbn [int_arg]. unfold bind, ret, read, where_id.
    destruct (store_findUnique db i);
      [|destruct (int32 i); cbn; discriminate].
    destruct (rating_findUnique db i (tok_id user)).
    + unfold write. destruct rating_update as [[? ?]|]; cbn; discriminate.
    + unfold write. destruct rating_create as [[? ?]|]; cbn; discriminate.
  - intros Hr. now rewrite (rate_denied _ _ _ Hauth Hr).
Qed.

(** C3: behind authentication, rating a store is refused with 403
    exactly when the caller's role is not USER, so for OWNER and for
    ADMIN; the refusal is the same response whatever the database, the
    store id and the body, and leaves the database as it was. *)
Theorem rate_permitted_iff_role_user :
  forall (h : AuthHeader) (now : Z) (user : Token),
    authMiddleware h now = inr user ->
    (tok_role user = OWNER \/ tok_role user = ADMIN ->
     forall db id rating,
       post_stores_id_rate h now id rating db
       = (error 403 "Only normal users can rate stores", db))
    /\ (forall db id rating,
          status (fst (post_stores_id_rate h now id rating db)) = 403
          <-> tok_role user <> USER).
Proof.
  intros h now user Hauth. split.
  - intros Hr. apply (rate_denied _ _ _ Hauth).
    destruct Hr as [Hr|Hr]; rewrite Hr; discriminate.
  - now apply rate_403_iff.
Qed.

(** *** List facts the handlers rely on *)

Lemma find_filter_none {A} (p : A -> bool) (l : list A) :
  find p (filter (fun x => negb (p x)) l) = None.
Proof.
  induction l as [|x l IH]; cbn; [reflexivity|].
  destruct (p x) eqn:E; cbn; [exact IH|]. now rewrite E.
Qed.

Lemma filter_filter_negb {A} (p : A -> bool) (l : list A) :
  filter p (filter (fun x => negb (p x)) l) = [].
Proof.
  induction l as [|x l IH]; cbn; [reflexivity|].
  destruct (p x) eqn:E; cbn; [exact IH|]. now rewrite E.
Qed.

Ltac behind_admin Hauth Hrole :=
  unfold route; cbn [middleware]; rewrite (run_admin _ _ _ Hauth Hrole).

(** Running the steps of a [try] block. *)
Ltac steps :=
  cbv beta iota zeta delta
    [try_catch try_catch_P2002 bind read write ret throw int_arg int_field
     where_id on_int_column].

(** C5: for an existing user, an ADMIN's delete answers 400 and changes
    nothing when the user owns a store or has a rating, and otherwise
    answers 200 and removes the user's row; in neither case is a store
    or a rating removed. *)
Theorem delete_user_guarded :
  forall (h : AuthHeader) (now : Z) (admin : Token) (db : Db) (id : Z) (u : User),
    authMiddleware h now = inr admin ->
    tok_role admin = ADMIN ->
    user_findUnique db id = Some u ->
    (stores_of_user db id <> [] \/ ratings_of_user db id <> [] ->
     delete_admin_users_id h now (Some id) db
     = (error 400 "Cannot delete user with stores or ratings", db))
    /\ (stores_of_user db id = [] /\ ratings_of_user db id = [] ->
        exists db',
          delete_admin_users_id h now (Some id) db
          = (json (Message "User deleted successfully"), db')
          /\ users db' = filter (fun v => negb (u_id v =? id)) (users db)
          /\ user_findUnique db' id = None
          /\ stores db' = stores db
          /\ ratings db' = ratings db).
Proof.
  intros h now admin db id u Hauth Hrole Hu. split.
  - intros Hown. unfold delete_admin_users_id. behind_admin Hauth Hrole.
    steps. rewrite Hu. cbn.
    destruct (stores_of_user db id) as [|s ss]; cbn.
    + destruct (ratings_of_user db id) as [|r rs]; cbn; [|reflexivity].
      destruct Hown as [H|H]; now elim H.
    + reflexivity.
  - intros [Hs Hr]. unfold delete_admin_users_id. behind_admin Hauth Hrole.
    steps. unfold user_delete.
    cbn. rewrite ?Hu, ?Hs, ?Hr. cbn. rewrite ?Hu, ?Hs, ?Hr.
    eexists. split; [reflexivity|]. cbn.
    repeat split. unfold user_findUnique. cbn. apply find_filter_none.
Qed.

(** C6: an ADMIN's delete of an existing store answers 200; afterwards
    the store's row is gone, no rating refers to the store, and the
    ratings of the other stores are all still there. *)
Theorem delete_store_cascades :
  forall (h : AuthHeader) (now : Z) (admin : Token) (db : Db) (id : Z) (s : Store),
    authMiddleware h now = inr admin ->
    tok_role admin = ADMIN ->
    store_findUnique db id = Some s ->
    exists db',
      delete_admin_stores_id h now (Some id) db
      = (json (Message "Store deleted successfully"), db')
      /\ store_findUnique db' id = None
      /\ stores db' = filter (fun t => negb (st_id t =? id)) (stores db)
      /\ ratings_of_store db' id = []
      /\ (forall r, In r (ratings db') -> r_storeId r <> id)
      /\ ratings db' = filter (fun r => negb (r_storeId r =? id)) (ratings db)
      /\ users db' = users db.
Proof.
  intros h now admin db id s Hauth Hrole Hs.
  unfold delete_admin_stores_id. behind_admin Hauth Hrole.
  steps. unfold store_delete.
  cbn.
  unfold store_findUnique in *. cbn. rewrite Hs.
  unfold ratings_of_store. cbn. rewrite filter_filter_negb. cbn.
  eexists. split; [reflexivity|]. cbn.
  split; [apply find_filter_none|].
  split; [reflexivity|].
  split; [apply filter_filter_negb|].
  split; [|split; reflexivity].
  intros r Hin. apply filter_In in Hin. destruct Hin as [_ Hne].
  apply negb_true_iff, Z.eqb_neq in Hne. exact Hne.
Qed.

Lemma str_eqb_eq (a b : jsstring) : str_eqb a b = true <-> a = b.
Proof.
  revert b. induction a as [|x a IH]; intros [|y b]; cbn;
    try (split; congruence).
  rewrite andb_true_iff, Z.eqb_eq, IH. split.
  - intros [-> ->]. reflexivity.
  - intros E. injection E as -> ->. now split.
Qed.

Lemma find_some_id {A} (key : A -> Z) (id : Z) (l : list A) (x : A) :
  find (fun y => key y =? id) l = Some x -> In x l /\ key x = id.
Proof.
  intros H. apply find_some in H. now rewrite Z.eqb_eq in H.
Qed.

Lemma find_map_replace {A} (key : A -> Z) (id : Z) (l : list A) (x x' : A) :
  find (fun y => key y =? id) l = Some x ->
  key x' = id ->
  find (fun y => key y =? id) (map (fun y => if key y =? id then x' else y) l)
  = Some x'.
Proof.
  intros Hf Hk. induction l as [|y l IH]; cbn in *; [discriminate|].
  destruct (key y =? id) eqn:E.
  - now rewrite Hk, Z.eqb_refl.
  - rewrite E. apply IH, Hf.
Qed.

Lemma existsb_false {A} (p : A -> bool) (l : list A) :
  (forall x, In x l -> p x = false) -> existsb p l = false.
Proof.
  intros H. induction l as [|x l IH]; cbn; [reflexivity|].
  rewrite (H x (or_introl eq_refl)), IH; [reflexivity|].
  intros y Hy. apply H. now right.
Qed.

(** C4: an ADMIN's store creation or store update whose ownerId is a
    number with an integer part in the range of the column that is not
    the id of a user with role OWNER answers 400 and leaves the database
    as it was.  An ownerId that is no number (missing, a string), or
    a number whose integer part is beyond 32 bits, makes the lookup of
    the owner throw: with a valid name and address the answer is 500,
    not 400, and the database is as it was.  The role is looked at only there: an
    ADMIN's later update of the owner's role succeeds, leaves the
    stores as they were and leaves the store with an owner of the new
    role. *)
Theorem owner_id_is_not_validated :
  forall (h : AuthHeader) (now : Z) (admin : Token) (db : Db),
    authMiddleware h now = inr admin ->
    tok_role admin = ADMIN ->
    (forall name address q,
       int32 (Z.quot (Qnum q) (Zpos (Qden q))) = true ->
       (forall o, user_findUnique db (Z.quot (Qnum q) (Zpos (Qden q))) = Some o ->
                  u_role o <> OWNER) ->
       (status (fst (post_stores h now name address (JNumber q) db)) = 400
        /\ snd (post_stores h now name address (JNumber q) db) = db)
       /\ (forall id,
             status (fst (put_admin_stores_id h now id name address
                            (JNumber q) db)) = 400
             /\ snd (put_admin_stores_id h now id name address (JNumber q) db)
                = db))
    /\ (forall name address ownerId,
          validateName name = true ->
          validateAddress address = true ->
          match ownerId with
          | JNumber q =>
              int32 (Z.quot (Qnum q) (Zpos (Qden q))) = false
              /\ user_findUnique db (Z.quot (Qnum q) (Zpos (Qden q))) = None
          | _ => True
          end ->
          post_stores h now name address ownerId db
          = ({| status := 500; body := ErrorOf PrismaValidation |}, db)
          /\ forall id,
               put_admin_stores_id h now id name address ownerId db
               = ({| status := 500; body := ErrorOf PrismaValidation |}, db))
    /\ (forall s o name email role r,
          In s (stores db) ->
          user_findUnique db (st_ownerId s) = Some o ->
          validateName name = true ->
          validateEmail email = true ->
          role_of_string role = Some r ->
          (forall v, In v (users db) -> u_email v = email ->
                     u_id v = st_ownerId s) ->
          exists o' db',
            put_admin_users_id h now (Some (st_ownerId s)) name email role db
            = (json (MessageUser "User updated" (select_all_but_password o')),
               db')
            /\ stores db' = stores db
            /\ In s (stores db')
            /\ user_findUnique db' (st_ownerId s) = Some o'
            /\ u_role o' = r).
Proof.
  intros h now admin db Hauth Hrole. split; [|split].
  - intros name address q Hi Hno.
    set (i := Z.quot (Qnum q) (Zpos (Qden q))) in *.
    assert (Hnot : forall owner,
              (owner = user_findUnique db i) -> not_an_owner owner = true).
    { intros owner ->. unfold not_an_owner.
      destruct (user_findUnique db i) as [o|].
      - apply negb_true_iff, role_eqb_neq, Hno. reflexivity.
      - reflexivity. }
    split; [|intros id].
    + unfold post_stores. behind_admin Hauth Hrole. steps.
      destruct (validateName name); cbn [negb]; [|now split].
      destruct (validateAddress address); cbn [negb]; [|now split].
      cbn [as_int]. fold i. specialize (Hnot _ eq_refl).
      destruct (user_findUnique db i) as [o|].
      * rewrite Hnot. now split.
      * rewrite Hi. cbn [not_an_owner]. now split.
    + unfold put_admin_stores_id. behind_admin Hauth Hrole. steps.
      destruct (validateName name); cbn [negb]; [|now split].
      destruct (validateAddress address); cbn [negb]; [|now split].
      cbn [as_int]. fold i. specialize (Hnot _ eq_refl).
      destruct (user_findUnique db i) as [o|].
      * rewrite Hnot. now split.
      * rewrite Hi. cbn [not_an_owner]. now split.
  - intros name address ownerId Hname Haddr Hbad.
    split; [|intros id].
    + unfold post_stores. behind_admin Hauth Hrole. steps.
      rewrite Hname, Haddr. cbn [negb].
      destruct ownerId as [q| |]; [|reflexivity|reflexivity].
      cbn [as_int]. destruct Hbad as [Hi Hu]. now rewrite Hu, Hi.
    + unfold put_admin_stores_id. behind_admin Hauth Hrole. steps.
      rewrite Hname, Haddr. cbn [negb].
      destruct ownerId as [q| |]; [|reflexivity|reflexivity].
      cbn [as_int]. destruct Hbad as [Hi Hu]. now rewrite Hu, Hi.
  - intros s o name email role r Hs Ho Hname Hemail Hr Hfree.
    unfold put_admin_users_id. behind_admin Hauth Hrole. steps.
    unfold user_update.
    rewrite Hname, Hemail, Hr. cbn [negb]. rewrite Ho.
    rewrite existsb_false.
    2:{ intros v Hv. destruct (str_eqb (u_email v) email) eqn:E; cbn;
          [|reflexivity].
        apply str_eqb_eq in E. rewrite (Hfree v Hv E), Z.eqb_refl.
        reflexivity. }
    eexists. eexists. split; [reflexivity|]. cbn.
    split; [reflexivity|]. split; [exact Hs|]. split; [|reflexivity].
    unfold user_findUnique in *. cbn.
    apply (find_map_replace u_id) with (x := o); [exact Ho|].
    cbn. apply find_some_id in Ho. apply Ho.
Qed.

(** *** Rating a store *)

Lemma as_int_inject (v : Z) : as_int (JNumber (inject_Z v)) = Some v.
Proof.
  unfold as_int, inject_Z. cbn [Qnum Qden]. now rewrite Z.quot_1_r.
Qed.

Lemma rating_rejected_int (v : Z) :
  rating_rejected (JNumber (inject_Z v)) = negb ((1 <=? v) && (v <=? 5)).
Proof.
  unfold rating_rejected, not_, lt_num, gt_num, Qlt_bool, Qeq_bool, Qle_bool,
    inject_Z.
  cbn [Qnum Qden]. rewrite !Z.mul_1_r. change (1 * 1) with 1.
  change (5 * 1) with 5. change (0 * 1) with 0.
  destruct (Z.eqb_spec v 0); destruct (Z.leb_spec 1 v);
    destruct (Z.leb_spec v 5); cbn; try reflexivity; lia.
Qed.



Lemma NoDup_map_split {A B} (f : A -> B) (l : list A) (x : A) :
  NoDup (map f l) -> In x l ->
  exists l1 l2, l = l1 ++ x :: l2
                /\ forall y, In y (l1 ++ l2) -> f y <> f x.
Proof.
  intros Hnd Hin. destruct (in_split _ _ Hin) as (l1 & l2 & ->).
  exists l1, l2. split; [reflexivity|].
  rewrite map_app in Hnd. cbn in Hnd. apply NoDup_remove_2 in Hnd.
  intros y Hy E. apply Hnd. rewrite <- map_app, <- E. now apply in_map.
Qed.

Lemma filter_none {A} (p : A -> bool) (l : list A) :
  (forall y, In y l -> p y = false) -> filter p l = [].
Proof.
  intros H. induction l as [|y l IH]; cbn; [reflexivity|].
  rewrite (H y (or_introl eq_refl)). apply IH. intros z Hz. apply H. now right.
Qed.

Lemma find_none_filter {A} (p : A -> bool) (l : list A) :
  find p l = None -> filter p l = [].
Proof.
  intros H. apply filter_none. intros y Hy. apply (find_none _ _ H _ Hy).
Qed.

Lemma filter_head_find {A} (p : A -> bool) (l : list A) (x : A) (t : list A) :
  filter p l = x :: t -> find p l = Some x.
Proof.
  induction l as [|y l IH]; cbn; [discriminate|].
  destruct (p y); [congruence|exact IH].
Qed.

Lemma map_replace_split {A} (key : A -> Z) (l1 l2 : list A) (x x' : A) :
  (forall y, In y (l1 ++ l2) -> key y <> key x) ->
  map (fun y => if key y =? key x then x' else y) (l1 ++ x :: l2)
  = l1 ++ x' :: l2.
Proof.
  intros H. rewrite map_app. cbn. rewrite Z.eqb_refl. f_equal; [|f_equal].
  - rewrite <- (map_id l1) at 2. apply map_ext_in. intros y Hy.
    destruct (Z.eqb_spec (key y) (key x)) as [E|_]; [|reflexivity].
    elim (H y); [apply in_or_app; now left|exact E].
  - rewrite <- (map_id l2) at 2. apply map_ext_in. intros y Hy.
    destruct (Z.eqb_spec (key y) (key x)) as [E|_]; [|reflexivity].
    elim (H y); [apply in_or_app; now right|exact E].
Qed.

Lemma same_pair_iff (storeId userId : Z) (r : Rating) :
  same_pair storeId userId r = true <-> pair_of r = (storeId, userId).
Proof.
  unfold same_pair, pair_of. rewrite andb_true_iff, !Z.eqb_eq.
  split; [intros [-> ->]; reflexivity|intros E; injection E; auto].
Qed.

Lemma rating_update_ok (db : Db) (r0 : Rating) (rating : jsval) (v : Z) :
  db_ok db -> In r0 (ratings db) -> as_int rating = Some v ->
  exists l1 l2,
    let r := {| r_id := r_id r0; r_rating := v; r_storeId := r_storeId r0;
                r_userId := r_userId r0 |} in
    ratings db = l1 ++ r0 :: l2
    /\ rating_update db (r_id r0) rating
       = Ok (r, set_ratings db (l1 ++ r :: l2))
    /\ forall y, In y (l1 ++ l2) -> pair_of y <> pair_of r0.
Proof.
  intros Hok Hin Hint.
  destruct (NoDup_map_split r_id _ _ (ok_rating_ids _ Hok) Hin)
    as (l1 & l2 & Hl & Hids).
  exists l1, l2. cbn zeta. split; [exact Hl|]. split.
  - unfold rating_update. rewrite Hint.
    assert (Hf : find (fun r => r_id r =? r_id r0) (ratings db) = Some r0).
    { destruct (find (fun r => r_id r =? r_id r0) (ratings db)) as [r|] eqn:E.
      - apply find_some_id in E. destruct E as [Hr Hid].
        rewrite Hl in Hr. apply in_app_or in Hr. cbn in Hr.
        destruct Hr as [Hr|[Hr|Hr]]; [|now subst|].
        + elim (Hids r); [apply in_or_app; now left|exact Hid].
        + elim (Hids r); [apply in_or_app; now right|exact Hid].
      - apply (find_none _ _ E) in Hin. now rewrite Z.eqb_refl in Hin. }
    rewrite Hf. do 3 f_equal. rewrite Hl.
    apply (map_replace_split r_id l1 l2 r0). exact Hids.
  - pose proof (ok_pairs _ Hok) as Hp. rewrite Hl in Hp.
    rewrite map_app in Hp. cbn in Hp. apply NoDup_remove_2 in Hp.
    intros y Hy E. apply Hp. rewrite <- map_app, <- E. now apply in_map.
Qed.

Lemma db_ok_rating_updated (db : Db) (l1 l2 : list Rating) (r0 r : Rating) :
  db_ok db -> ratings db = l1 ++ r0 :: l2 ->
  r_id r = r_id r0 -> pair_of r = pair_of r0 ->
  db_ok (set_ratings db (l1 ++ r :: l2)).
Proof.
  intros Hok Hl Hid Hpair.
  assert (Hfrom : forall y, In y (l1 ++ r :: l2) ->
            exists y0, In y0 (ratings db) /\ r_id y = r_id y0
                       /\ pair_of y = pair_of y0).
  { intros y Hy. rewrite Hl. apply in_app_or in Hy. cbn in Hy.
    destruct Hy as [Hy|[<-|Hy]].
    - exists y. repeat split. apply in_or_app. now left.
    - exists r0. repeat split; auto. apply in_or_app. right. now left.
    - exists y. repeat split. apply in_or_app. right. now right. }
  constructor; cbn; try apply Hok.
  - replace (map r_id (l1 ++ r :: l2)) with (map r_id (ratings db));
      [apply Hok|].
    rewrite Hl, !map_app. cbn. now rewrite Hid.
  - replace (map pair_of (l1 ++ r :: l2)) with (map pair_of (ratings db));
      [apply Hok|].
    rewrite Hl, !map_app. cbn. now rewrite Hpair.
  - intros y Hy. destruct (Hfrom y Hy) as (y0 & Hy0 & _ & Hp).
    injection Hp as -> _. now apply (ok_rating_store _ Hok).
  - intros y Hy. destruct (Hfrom y Hy) as (y0 & Hy0 & _ & Hp).
    injection Hp as _ ->. now apply (ok_rating_user _ Hok).
  - intros y Hy. destruct (Hfrom y Hy) as (y0 & Hy0 & -> & _).
    now apply (ok_rating_seq _ Hok).
Qed.

Lemma NoDup_snoc {A} (l : list A) (x : A) :
  NoDup l -> ~ In x l -> NoDup (l ++ [x]).
Proof.
  intros Hl Hx. apply NoDup_app; [exact Hl|repeat constructor; intros []|].
  intros y Hy [<-|[]]. now apply Hx.
Qed.

Lemma db_ok_rating_created (db : Db) (v storeId userId : Z) :
  db_ok db ->
  rating_findUnique db storeId userId = None ->
  store_findUnique db storeId <> None ->
  user_findUnique db userId <> None ->
  db_ok {| users := users db; stores := stores db;
           ratings := ratings db
                      ++ [{| r_id := rating_seq db; r_rating := v;
                             r_storeId := storeId; r_userId := userId |}];
           store_seq := store_seq db; rating_seq := rating_seq db + 1 |}.
Proof.
  intros Hok Hnone Hs Hu.
  constructor; cbn; try apply Hok.
  - rewrite map_app. cbn. apply NoDup_snoc; [apply Hok|].
    intros Hin. apply in_map_iff in Hin. destruct Hin as (y & Hid & Hy).
    apply (ok_rating_seq _ Hok) in Hy. lia.
  - rewrite map_app. cbn. apply NoDup_snoc; [apply Hok|].
    intros Hin. apply in_map_iff in Hin. destruct Hin as (y & Hp & Hy).
    change (pair_of y = (storeId, userId)) in Hp.
    apply same_pair_iff in Hp.
    unfold rating_findUnique in Hnone.
    rewrite (find_none _ _ Hnone _ Hy) in Hp. discriminate.
  - intros y Hy. apply in_app_or in Hy. cbn in Hy.
    destruct Hy as [Hy|[<-|[]]]; [now apply (ok_rating_store _ Hok)|exact Hs].
  - intros y Hy. apply in_app_or in Hy. cbn in Hy.
    destruct Hy as [Hy|[<-|[]]]; [now apply (ok_rating_user _ Hok)|exact Hu].
  - intros y Hy. apply in_app_or in Hy. cbn in Hy.
    destruct Hy as [Hy|[<-|[]]]; [apply (ok_rating_seq _ Hok) in Hy|cbn]; lia.
Qed.

(** One accepted submission: the handler answers with the rating, which
    is then the only row of its (store, user) pair; it is the row that
    was there, with its id, or else a new row with the next id. *)
Lemma rate_once (h : AuthHeader) (now : Z) (user : Token) (db : Db)
  (storeId : Z) (rating : jsval) (v : Z) :
  db_ok db ->
  authMiddleware h now = inr user ->
  tok_role user = USER ->
  store_findUnique db storeId <> None ->
  user_findUnique db (tok_id user) <> None ->
  rating_rejected rating = false ->
  as_int rating = Some v ->
  exists r db',
    post_stores_id_rate h now (Some storeId) rating db
    = (json (OneRating r), db')
    /\ r_rating r = v
    /\ filter (same_pair storeId (tok_id user)) (ratings db') = [r]
    /\ db_ok db'
    /\ users db' = users db
    /\ stores db' = stores db
    /\ match rating_findUnique db storeId (tok_id user) with
       | Some r0 =>
           r_id r = r_id r0
           /\ List.length (ratings db') = List.length (ratings db)
       | None =>
           r_id r = rating_seq db /\ ratings db' = ratings db ++ [r]
       end.
Proof.
  intros Hok Hauth Hrole Hs Hu Hacc Hint.
  unfold post_stores_id_rate, route. cbn [middleware].
  rewrite (run_auth _ _ _ Hauth), Hrole. cbn [role_eqb negb].
  steps. rewrite Hacc.
  destruct (store_findUnique db storeId) as [s|] eqn:Es; [|now elim Hs].
  destruct (rating_findUnique db storeId (tok_id user)) as [r0|] eqn:Er.
  - pose proof Er as Hfind. unfold rating_findUnique in Hfind.
    apply find_some in Hfind. destruct Hfind as [Hin Hp].
    destruct (rating_update_ok db r0 rating v Hok Hin Hint)
      as (l1 & l2 & Hl & Hup & Hne).
    cbn zeta in Hup. rewrite Hup.
    eexists. eexists. split; [reflexivity|]. cbn.
    split; [reflexivity|]. split; [|split; [|repeat split]].
    + rewrite filter_app. cbn. unfold same_pair at 2. cbn.
      unfold same_pair in Hp. rewrite Hp.
      rewrite !filter_none; [reflexivity| |].
      * intros y Hy. destruct (same_pair _ _ y) eqn:E; [|reflexivity].
        elim (Hne y); [apply in_or_app; now right|].
        apply same_pair_iff in E. rewrite E. symmetry.
        now apply same_pair_iff.
      * intros y Hy. destruct (same_pair _ _ y) eqn:E; [|reflexivity].
        elim (Hne y); [apply in_or_app; now left|].
        apply same_pair_iff in E. rewrite E. symmetry.
        now apply same_pair_iff.
    + now apply db_ok_rating_updated with (r0 := r0).
    + rewrite Hl, !length_app. reflexivity.
  - unfold rating_create. rewrite Hint, Er, Es.
    destruct (user_findUnique db (tok_id user)) as [u|] eqn:Eu;
      [|now elim Hu].
    eexists. eexists. split; [reflexivity|]. cbn.
    split; [reflexivity|]. split; [|split; [|repeat split]].
    + rewrite filter_app. cbn. unfold same_pair at 2. cbn.
      rewrite !Z.eqb_refl. cbn.
      rewrite (find_none_filter _ _ Er). reflexivity.
    + apply db_ok_rating_created; congruence.
Qed.

(** C1: two accepted submissions of a USER for the same store leave
    exactly one rating of that (store, user) pair; it has the value of
    the second submission and the id the first submission answered
    with, and the second submission adds no row. *)
Theorem resubmitted_rating_is_updated_in_place :
  forall (h1 h2 : AuthHeader) (now1 now2 : Z) (user1 user2 : Token) (db : Db)
         (storeId v1 v2 : Z),
    db_ok db ->
    authMiddleware h1 now1 = inr user1 ->
    authMiddleware h2 now2 = inr user2 ->
    tok_id user1 = tok_id user2 ->
    tok_role user1 = USER ->
    tok_role user2 = USER ->
    store_findUnique db storeId <> None ->
    user_findUnique db (tok_id user1) <> None ->
    1 <= v1 <= 5 -> 1 <= v2 <= 5 -> v1 <> v2 ->
    exists r1 db1 r2 db2,
      post_stores_id_rate h1 now1 (Some storeId) (JNumber (inject_Z v1)) db
      = (json (OneRating r1), db1)
      /\ post_stores_id_rate h2 now2 (Some storeId) (JNumber (inject_Z v2)) db1
         = (json (OneRating r2), db2)
      /\ filter (same_pair storeId (tok_id user1)) (ratings db2) = [r2]
      /\ r_rating r2 = v2
      /\ r_id r2 = r_id r1
      /\ List.length (ratings db2) = List.length (ratings db1).
Proof.
  intros h1 h2 now1 now2 user1 user2 db storeId v1 v2
    Hok Ha1 Ha2 Hid Hr1 Hr2 Hs Hu Hv1 Hv2 _.
  assert (Hacc : forall v, 1 <= v <= 5 ->
            rating_rejected (JNumber (inject_Z v)) = false).
  { intros v Hv. rewrite rating_rejected_int. apply negb_false_iff.
    apply andb_true_iff. split; apply Z.leb_le; lia. }
  destruct (rate_once h1 now1 user1 db storeId _ v1 Hok Ha1 Hr1 Hs Hu
              (Hacc v1 Hv1) (as_int_inject v1))
    as (r1 & db1 & Hcall1 & _ & Hone1 & Hok1 & Husers & Hstores & _).
  assert (Hs1 : store_findUnique db1 storeId <> None)
    by (unfold store_findUnique in *; now rewrite Hstores).
  assert (Hu1 : user_findUnique db1 (tok_id user2) <> None)
    by (unfold user_findUnique in *; now rewrite Husers, <- Hid).
  destruct (rate_once h2 now2 user2 db1 storeId _ v2 Hok1 Ha2 Hr2 Hs1 Hu1
              (Hacc v2 Hv2) (as_int_inject v2))
    as (r2 & db2 & Hcall2 & Hval & Hone2 & _ & _ & _ & Hsame).
  exists r1, db1, r2, db2.
  rewrite <- Hid in *.
  unfold rating_findUnique in Hsame.
  rewrite (filter_head_find _ _ _ _ Hone1) in Hsame.
  repeat split; try assumption; apply Hsame.
Qed.

(** *** The aggregate of a store *)

Lemma rne_spec (n d : Z) :
  0 < d -> 2 * rne n d * d - d <= 2 * n <= 2 * rne n d * d + d.
Proof.
  intros Hd. unfold rne.
  pose proof (Z.div_mod n d ltac:(lia)) as Hdm.
  pose proof (Z.mod_pos_bound n d Hd) as Hr.
  destruct (Z.ltb_spec (2 * (n mod d)) d);
    [|destruct (Z.ltb_spec d (2 * (n mod d)));
      [|destruct (Z.even (n / d))]]; nia.
Qed.

Lemma binade_1_to_5 (s c : Z) :
  0 < c -> c <= s <= 5 * c -> 0 <= binade s c <= 2.
Proof.
  intros Hc Hs. unfold binade.
  replace (c <=? s) with true by (symmetry; apply Z.leb_le; lia).
  assert (1 <= s / c) by (apply Z.div_le_lower_bound; lia).
  assert (s / c <= 5) by (apply Z.div_le_upper_bound; lia).
  assert (Hq : s / c = 1 \/ s / c = 2 \/ s / c = 3 \/ s / c = 4 \/ s / c = 5)
    by lia.
  destruct Hq as [->|[->|[->|[->| ->]]]]; cbn; lia.
Qed.

Lemma fdiv_pos_below_one_ulp (s c k : Z) :
  binade s c = k -> 0 <= k < 52 ->
  fdiv_pos s c = Qmake (rne (s * 2 ^ (52 - k)) c) (Z.to_pos (2 ^ (52 - k))).
Proof.
  intros Hk Hr. unfold fdiv_pos, scaled. rewrite Hk.
  rewrite (Z.max_r 0 (- (k - 52))) by lia.
  rewrite (Z.max_l 0 (k - 52)) by lia.
  replace (0 <=? k - 52) with false by (symmetry; apply Z.leb_gt; lia).
  replace (- (k - 52)) with (52 - k) by lia.
  now rewrite Z.pow_0_r, Z.mul_1_r.
Qed.

Lemma toFixed1_of_scaled (m E : Z) :
  0 < E -> 0 < m <= 5 * E + 1 ->
  parseFloat_toFixed1 (Qmake m (Z.to_pos E))
  = Qmake ((20 * m + E) / (2 * E)) 10.
Proof.
  intros HE Hm.
  unfold parseFloat_toFixed1, toFixed1_digits, Qle_bool, Qabs.
  cbn [Qnum Qden inject_Z]. rewrite Z2Pos.id by exact HE.
  rewrite Z.abs_eq by lia. rewrite Z.sgn_pos by lia.
  replace (10 ^ 21 * E <=? m * 1) with false
    by (symmetry; apply Z.leb_gt; change (10 ^ 21) with 1000000000000000000000;
        lia).
  now rewrite Z.mul_1_l.
Qed.

(** The integer core of the rounding: with a significand [m] of the
    quotient at scale [E] and the digits [n] of [toFixed(1)], [n / 10]
    is within [1 / 20] of [s / c]. *)
Lemma digits_within_half (s c E : Z) :
  0 < c -> c <= s <= 5 * c -> 10 * c < E ->
  let m := rne (s * E) c in
  let n := (20 * m + E) / (2 * E) in
  0 < m <= 5 * E + 1 /\ - c <= 2 * n * c - 20 * s <= c.
Proof.
  intros Hc Hs HE m n.
  pose proof (rne_spec (s * E) c Hc) as Hm. fold m in Hm.
  pose proof (Z.div_mod (20 * m + E) (2 * E) ltac:(lia)) as Hdm.
  pose proof (Z.mod_pos_bound (20 * m + E) (2 * E) ltac:(lia)) as Hr.
  fold n in Hdm.
  assert (Hm1 : 0 < m) by nia.
  assert (Hm2 : m <= 5 * E + 1) by nia.
  split; [lia|].
  set (t := 2 * n * c - 20 * s) in *.
  assert (Hup : E * (t - c) <= 10 * c) by (unfold t; nia).
  assert (Hlo : - (10 * c) < E * (t + c)) by (unfold t; nia).
  split; nia.
Qed.

Lemma sum_ratings_bounds (rs : list Rating) :
  Forall (fun r => 1 <= r_rating r <= 5) rs ->
  Z.of_nat (List.length rs) <= sum_ratings rs <= 5 * Z.of_nat (List.length rs).
Proof.
  unfold sum_ratings. intros H.
  assert (G : forall a,
    a + Z.of_nat (List.length rs)
    <= fold_left (fun a r => a + r_rating r) rs a
    <= a + 5 * Z.of_nat (List.length rs)).
  { induction H as [|r rs Hr _ IH]; intros a; cbn [fold_left List.length].
    - lia.
    - specialize (IH (a + r_rating r)). lia. }
  specialize (G 0). lia.
Qed.

(** The average of a store with ratings in [1, 5]: the number printed
    has one decimal and is within [1 / 20] of the exact quotient. *)
Lemma average_digits (rs : list Rating) :
  rs <> [] ->
  Forall (fun r => 1 <= r_rating r <= 5) rs ->
  Z.of_nat (List.length rs) < 2 ^ 46 ->
  exists n,
    average rs = Qmake n 10
    /\ - Z.of_nat (List.length rs)
       <= 2 * n * Z.of_nat (List.length rs) - 20 * sum_ratings rs
       <= Z.of_nat (List.length rs).
Proof.
  intros Hne Hrange Hsmall.
  pose proof (sum_ratings_bounds rs Hrange) as Hsum.
  set (c := Z.of_nat (List.length rs)) in *.
  set (s := sum_ratings rs) in *.
  assert (Hc : 0 < c) by (unfold c; destruct rs; [now elim Hne|cbn; lia]).
  unfold average. fold c s.
  replace (0 <? c) with true by (symmetry; apply Z.ltb_lt; lia).
  unfold fdiv.
  replace (s =? 0) with false by (symmetry; apply Z.eqb_neq; lia).
  replace (s <? 0) with false by (symmetry; apply Z.ltb_ge; lia).
  pose proof (binade_1_to_5 s c Hc Hsum) as Hk.
  rewrite (fdiv_pos_below_one_ulp s c (binade s c) eq_refl) by lia.
  set (E := 2 ^ (52 - binade s c)).
  assert (HE : 2 ^ 50 <= E)
    by (unfold E; apply Z.pow_le_mono_r; lia).
  assert (H46 : 10 * 2 ^ 46 < 2 ^ 50) by (cbn; lia).
  destruct (digits_within_half s c E Hc Hsum ltac:(lia)) as [Hm Hn].
  rewrite toFixed1_of_scaled by lia.
  eexists. split; [reflexivity|exact Hn].
Qed.

Lemma sum_ratings_from (rs : list Rating) (a : Z) :
  fold_left (fun a r => a + r_rating r) rs a = a + sumZ (map r_rating rs).
Proof.
  revert a. induction rs as [|r rs IH]; intros a; cbn; [lia|].
  rewrite IH. lia.
Qed.

Lemma sum_ratings_sumZ (rs : list Rating) :
  sum_ratings rs = sumZ (map r_rating rs).
Proof. unfold sum_ratings. now rewrite sum_ratings_from. Qed.

Lemma ratings_of_store_values (db : Db) (storeId : Z) :
  map r_rating (ratings_of_store db storeId) = values_of db storeId.
Proof. reflexivity. Qed.

Lemma average_rounds (rs : list Rating) :
  rs <> [] ->
  Forall (fun r => 1 <= r_rating r <= 5) rs ->
  Z.of_nat (List.length rs) < 2 ^ 46 ->
  (exists n, average rs = Qmake n 10)
  /\ (Qabs (average rs - mean (map r_rating rs)) <= 1 # 20)%Q.
Proof.
  intros Hne Hrange Hsmall.
  destruct (average_digits rs Hne Hrange Hsmall) as (n & Havg & Hn).
  split; [now exists n|].
  rewrite Havg. unfold mean. rewrite length_map, <- sum_ratings_sumZ.
  assert (Hc : 0 < Z.of_nat (List.length rs))
    by (destruct rs; [now elim Hne|cbn; lia]).
  set (c := Z.of_nat (List.length rs)) in *.
  set (s := sum_ratings rs) in *.
  apply Qabs_Qle_condition.
  unfold Qle, Qminus, Qplus, Qopp. cbn [Qnum Qden].
  rewrite !Pos2Z.inj_mul, !Z2Pos.id by exact Hc.
  split; nia.
Qed.

Lemma average_is_aggregate (rs : list Rating) :
  Forall (fun r => 1 <= r_rating r <= 5) rs ->
  Z.of_nat (List.length rs) < 2 ^ 46 ->
  is_aggregate (map r_rating rs) (average rs) (Z.of_nat (List.length rs)).
Proof.
  intros Hrange Hsmall. split; [now rewrite length_map|]. split.
  - intros E. apply map_eq_nil in E. subst rs. reflexivity.
  - intros Hne. apply average_rounds; try assumption.
    intros ->. now apply Hne.
Qed.

Lemma ratings_of_store_range (db : Db) (storeId : Z) :
  ratings_in_range db ->
  Forall (fun r => 1 <= r_rating r <= 5) (ratings_of_store db storeId).
Proof.
  unfold ratings_in_range, ratings_of_store. rewrite !Forall_forall.
  intros H r Hr. apply filter_In in Hr. now apply H.
Qed.

Lemma ratings_of_store_small (db : Db) (storeId : Z) :
  Z.of_nat (List.length (ratings db)) < 2 ^ 46 ->
  Z.of_nat (List.length (ratings_of_store db storeId)) < 2 ^ 46.
Proof.
  intros H. unfold ratings_of_store.
  pose proof (filter_length_le (fun r => r_storeId r =? storeId) (ratings db)).
  lia.
Qed.

Lemma store_aggregate (db : Db) (storeId : Z) :
  ratings_in_range db ->
  Z.of_nat (List.length (ratings db)) < 2 ^ 46 ->
  is_aggregate (values_of db storeId)
               (average (ratings_of_store db storeId))
               (Z.of_nat (List.length (ratings_of_store db storeId))).
Proof.
  intros Hrange Hsmall. rewrite <- ratings_of_store_values.
  apply average_is_aggregate.
  - now apply ratings_of_store_range.
  - now apply ratings_of_store_small.
Qed.

Lemma listing_aggregate (sel : User -> UserView) (owner : bool) (db : Db)
  (s : Store) :
  ratings_in_range db ->
  Z.of_nat (List.length (ratings db)) < 2 ^ 46 ->
  aggregate_of db (listing sel owner db s) /\ l_store (listing sel owner db s) = s.
Proof.
  intros Hrange Hsmall. split; [|reflexivity].
  unfold aggregate_of, listing. cbn [l_store averageRating totalRatings].
  now apply store_aggregate.
Qed.

Lemma listings_aggregate (sel : User -> UserView) (owner : bool) (db : Db)
  (l : list Store) :
  ratings_in_range db ->
  Z.of_nat (List.length (ratings db)) < 2 ^ 46 ->
  Forall (aggregate_of db) (map (listing sel owner db) l)
  /\ map l_store (map (listing sel owner db) l) = l.
Proof.
  intros Hrange Hsmall. split.
  - apply Forall_forall. intros e He. apply in_map_iff in He.
    destruct He as (s & <- & _). now apply listing_aggregate.
  - rewrite map_map. cbn. apply map_id.
Qed.

Lemma insert_by_perm {A} (le : A -> A -> bool) (x : A) (l : list A) :
  Permutation (insert_by le x l) (x :: l).
Proof.
  induction l as [|y l IH]; cbn; [reflexivity|].
  destruct (le x y); [reflexivity|].
  rewrite IH. apply perm_swap.
Qed.

Lemma sort_by_perm {A} (le : A -> A -> bool) (l : list A) :
  Permutation (sort_by le l) l.
Proof.
  induction l as [|x l IH]; cbn; [reflexivity|].
  rewrite insert_by_perm. now constructor.
Qed.

Lemma where_search_asked_for (c : Collation) (search : option jsstring)
  (l : list Store) :
  filter (where_search c search) l = filter (asked_for c search) l.
Proof.
  apply filter_ext. intros s. now destruct search as [[|x q]|].
Qed.

(** The two aggregates the specification computes by hand. *)
Lemma aggregate_of_5_4_3 (avg : Q) (total : Z) :
  is_aggregate [5; 4; 3] avg total -> total = 3 /\ avg = Qmake 40 10.
Proof.
  intros (Ht & _ & H). split; [exact Ht|].
  destruct H as [[n ->] Hn]; [discriminate|].
  apply Qabs_Qle_condition in Hn. destruct Hn as [Hlo Hhi].
  unfold mean, Qle, Qminus, Qplus, Qopp in Hlo, Hhi.
  cbn in Hlo, Hhi. f_equal. lia.
Qed.

Lemma aggregate_of_none (avg : Q) (total : Z) :
  is_aggregate [] avg total -> total = 0 /\ (avg == 0)%Q.
Proof.
  intros (Ht & H & _). split; [exact Ht|now apply H].
Qed.

(** C2: in the three store listings every entry reports as totalRatings
    the number of the ratings of its store and as averageRating their
    mean [sum(values) / count] rounded to one decimal (a number [n / 10]
    within [1 / 20] of the mean), and 0 for a store without ratings; a
    store with the ratings 5, 4, 3 is reported with 3 and 4.0, a store
    without ratings with 0 and 0.  The listings hold the stores asked
    for, each once.  The ratings are those of the data model, in
    [1, 5], and fewer than [2^46]. *)
Theorem listings_report_count_and_rounded_mean :
  forall (db : Db),
    ratings_in_range db ->
    Z.of_nat (List.length (ratings db)) < 2 ^ 46 ->
    (forall c now search,
       exists l,
         get_stores c now search db = (json (Listing l), db)
         /\ Permutation (map l_store l)
                        (filter (asked_for c search) (stores db))
         /\ Forall (aggregate_of db) l)
    /\ (forall c h now admin search,
          authMiddleware h now = inr admin -> tok_role admin = ADMIN ->
          exists l,
            get_admin_stores c h now search db = (json (Listing l), db)
            /\ Permutation (map l_store l)
                           (filter (asked_for c search) (stores db))
            /\ Forall (aggregate_of db) l)
    /\ (forall h now owner,
          authMiddleware h now = inr owner -> tok_role owner = OWNER ->
          exists l,
            get_owner_stores h now db = (json (Listing l), db)
            /\ map l_store l = owned_by db (tok_id owner)
            /\ Forall (aggregate_of db) l)
    /\ (forall c now search l e,
          get_stores c now search db = (json (Listing l), db) ->
          In e l ->
          (values_of db (st_id (l_store e)) = [5; 4; 3] ->
           totalRatings e = 3 /\ averageRating e = Qmake 40 10)
          /\ (values_of db (st_id (l_store e)) = [] ->
              totalRatings e = 0 /\ (averageRating e == 0)%Q)).
Proof.
  intros db Hrange Hsmall.
  assert (Hpublic : forall c now search,
            exists l,
              get_stores c now search db = (json (Listing l), db)
              /\ Permutation (map l_store l)
                             (filter (asked_for c search) (stores db))
              /\ Forall (aggregate_of db) l).
  { intros c now search. eexists. split; [reflexivity|].
    destruct (listings_aggregate select_id_name true db
                (store_findMany_search c search db) Hrange Hsmall) as [H1 H2].
    split; [|exact H1]. rewrite H2, <- where_search_asked_for.
    apply sort_by_perm. }
  split; [exact Hpublic|]. split; [|split].
  - intros c h now admin search Hauth Hrole.
    unfold get_admin_stores. behind_admin Hauth Hrole.
    eexists. split; [reflexivity|].
    destruct (listings_aggregate select_id_name true db
                (store_findMany_search c search db) Hrange Hsmall) as [H1 H2].
    split; [|exact H1]. rewrite H2, <- where_search_asked_for.
    apply sort_by_perm.
  - intros h now owner Hauth Hrole.
    unfold get_owner_stores, route. cbn [middleware].
    rewrite (run_owner _ _ _ Hauth Hrole).
    eexists. split; [reflexivity|].
    destruct (listings_aggregate select_id_name_email false db
                (stores_of_user db (tok_id owner)) Hrange Hsmall) as [H1 H2].
    split; [exact H2|exact H1].
  - intros c now search l e Hcall He.
    destruct (Hpublic c now search) as (l' & Hcall' & _ & Hall).
    rewrite Hcall in Hcall'. injection Hcall' as <-.
    rewrite Forall_forall in Hall. specialize (Hall e He).
    unfold aggregate_of in Hall. split; intros Hv; rewrite Hv in Hall.
    + now apply aggregate_of_5_4_3.
    + now apply aggregate_of_none.
Qed.

(** *** The dashboard *)

Section SortDesc.

Context {A : Type} (key rank : A -> Z).

Let before (a b : A) : Prop :=
  key b < key a \/ (key a = key b /\ rank a <= rank b).
Let beforeb (a b : A) : bool :=
  (key b <? key a) || ((key a =? key b) && (rank a <=? rank b)).

Lemma beforeb_spec (a b : A) : beforeb a b = true <-> before a b.
Proof.
  unfold beforeb, before.
  rewrite orb_true_iff, andb_true_iff, Z.ltb_lt, Z.eqb_eq, Z.leb_le.
  reflexivity.
Qed.

Lemma beforeb_total (a b : A) : beforeb a b = false -> before b a.
Proof.
  unfold beforeb, before. rewrite orb_false_iff, andb_false_iff.
  rewrite Z.ltb_ge, Z.eqb_neq, Z.leb_gt. lia.
Qed.

Lemma before_trans (a b c : A) : before a b -> before b c -> before a c.
Proof. unfold before. lia. Qed.

Lemma insert_desc_sorted (x : A) (l : list A) :
  StronglySorted before l -> StronglySorted before (insert_by beforeb x l).
Proof.
  induction 1 as [|y l Hl IH Hy]; cbn.
  - repeat constructor.
  - destruct (beforeb x y) eqn:E.
    + apply beforeb_spec in E.
      constructor; [now constructor|].
      constructor; [exact E|].
      eapply Forall_impl; [|exact Hy]. intros z Hz.
      now apply (before_trans x y z).
    + apply beforeb_total in E.
      constructor; [exact IH|].
      apply Forall_forall. intros z Hz.
      apply (Permutation_in _ (insert_by_perm beforeb x l)) in Hz.
      destruct Hz as [<-|Hz]; [exact E|].
      rewrite Forall_forall in Hy. now apply Hy.
Qed.

Lemma sort_desc_sorted (l : list A) :
  StronglySorted before (sort_by beforeb l).
Proof.
  induction l as [|x l IH]; cbn; [constructor|].
  now apply insert_desc_sorted.
Qed.

End SortDesc.

Section Sorted.

Context {A : Type} (before before' : A -> A -> Prop).

Lemma sorted_front (front back : list A) :
  StronglySorted before (front ++ back) ->
  StronglySorted before front
  /\ forall a b, In a front -> In b back -> before a b.
Proof.
  induction front as [|x front IH]; cbn; intros H.
  - split; [constructor|intros a b []].
  - apply StronglySorted_inv in H. destruct H as [Hs Hx].
    destruct (IH Hs) as [Hs1 Hab]. split.
    + constructor; [exact Hs1|].
      apply Forall_forall. intros z Hz. rewrite Forall_forall in Hx.
      apply Hx. apply in_or_app. now left.
    + intros a b [<-|Ha] Hb.
      * rewrite Forall_forall in Hx. apply Hx. apply in_or_app. now right.
      * now apply Hab.
Qed.

Lemma sorted_weaker (stores : list A) :
  (forall a b, before a b -> before' a b) ->
  StronglySorted before stores -> StronglySorted before' stores.
Proof.
  intros Himp. induction 1 as [|x l Hl IH Hx]; constructor.
  - exact IH.
  - eapply Forall_impl; [|exact Hx]. intros z. apply Himp.
Qed.

End Sorted.

Lemma count_ratings_count_of (db : Db) (s : Store) :
  count_ratings db s = count_of db s.
Proof.
  unfold count_ratings, count_of.
  now rewrite <- ratings_of_store_values, length_map.
Qed.

Lemma top_sorted (rank : Store -> Z) (db : Db) :
  StronglySorted (ranked_before rank db)
                 (sort_by (before_in_top rank db) (stores db)).
Proof.
  apply (sorted_weaker
           (fun a b => count_ratings db b < count_ratings db a
                       \/ (count_ratings db a = count_ratings db b
                           /\ rank a <= rank b))).
  - intros a b. unfold ranked_before. now rewrite !count_ratings_count_of.
  - apply (sort_desc_sorted (count_ratings db) rank).
Qed.

Lemma topStores_mapped (db : Db) (l : list Store) :
  ratings_in_range db ->
  Z.of_nat (List.length (ratings db)) < 2 ^ 46 ->
  (forall s, In s l -> user_findUnique db (st_ownerId s) <> None) ->
  exists ts, map_result (topStoreWithAvg db) l = Ok ts
             /\ Forall2 (top_of db) l ts.
Proof.
  intros Hrange Hsmall. induction l as [|s l IH]; intros Hown; cbn.
  - exists []. split; [reflexivity|constructor].
  - destruct IH as (ts & Hts & Hall); [intros; apply Hown; now right|].
    unfold topStoreWithAvg at 1.
    destruct (user_findUnique db (st_ownerId s)) as [o|] eqn:Eo;
      [|now elim (Hown s (or_introl eq_refl))].
    rewrite Hts. eexists. split; [reflexivity|].
    constructor; [|exact Hall].
    split; [reflexivity|]. split; [reflexivity|].
    cbn [top_averageRating top_totalRatings].
    now apply store_aggregate.
Qed.

Lemma count_role_users_with_role (db : Db) (r : Role) :
  count_role db r = users_with_role db r.
Proof.
  unfold count_role, users_with_role. f_equal.
  induction (users db) as [|u l IH]; [reflexivity|].
  cbn [filter map count_occ].
  destruct (role_dec (u_role u) r) as [E|E].
  - apply role_eqb_eq in E. rewrite E. cbn [List.length]. now rewrite IH.
  - apply role_eqb_neq in E. now rewrite E.
Qed.

Lemma roleCounts_spec (db : Db) (r : Role) (n : Z) :
  In (r, n) (roleCounts db) <-> n = count_role db r /\ 0 < n.
Proof.
  unfold roleCounts. rewrite filter_In. cbn [map In snd].
  rewrite Z.ltb_lt. split.
  - intros [[E|[E|[E|[]]]] Hn]; injection E as <- <-; now split.
  - intros [-> Hn]. split; [|exact Hn]. destruct r; auto.
Qed.

(** C9: an ADMIN's dashboard reports the numbers of users, stores and
    ratings, the number of users of each role that has users, and as
    topStores at most 5 stores: the first 5 of the stores in descending
    order of their number of ratings, so that no store left out has
    more ratings than a store listed, each with its number of ratings
    and their mean rounded to one decimal, 0 without ratings.  Among
    stores with as many ratings the order is the database's, whatever
    it is. *)
Theorem dashboard_top_five_by_rating_count :
  forall (rank : Store -> Z) (h : AuthHeader) (now : Z) (admin : Token)
         (db : Db),
    authMiddleware h now = inr admin ->
    tok_role admin = ADMIN ->
    db_ok db ->
    ratings_in_range db ->
    Z.of_nat (List.length (ratings db)) < 2 ^ 46 ->
    exists d chosen rest,
      get_admin_dashboard rank h now db = (json (Stats d), db)
      /\ totalUsers d = Z.of_nat (List.length (users db))
      /\ totalStores d = Z.of_nat (List.length (stores db))
      /\ d_totalRatings d = Z.of_nat (List.length (ratings db))
      /\ (forall r n, In (r, n) (usersByRole d)
                      <-> n = users_with_role db r /\ 0 < n)
      /\ (List.length (topStores d) <= 5)%nat
      /\ List.length (topStores d) = Nat.min 5 (List.length (stores db))
      /\ Forall2 (top_of db) chosen (topStores d)
      /\ Permutation (chosen ++ rest) (stores db)
      /\ StronglySorted (fun a b => count_of db b <= count_of db a) chosen
      /\ (forall a b, In a chosen -> In b rest ->
                      count_of db b <= count_of db a)
      /\ StronglySorted (ranked_before rank db) chosen
      /\ (forall a b, In a chosen -> In b rest -> ranked_before rank db a b).
Proof.
  intros rank h now admin db Hauth Hrole Hok Hrange Hsmall.
  set (sorted := sort_by (before_in_top rank db) (stores db)).
  assert (Hperm : Permutation sorted (stores db)) by apply sort_by_perm.
  assert (Hsplit : firstn 5 sorted ++ skipn 5 sorted = sorted)
    by apply firstn_skipn.
  pose proof (top_sorted rank db) as Hsorted.
  fold sorted in Hsorted. rewrite <- Hsplit in Hsorted.
  apply sorted_front in Hsorted. destruct Hsorted as [Hs1 Hs2].
  assert (Hcount : forall a b, ranked_before rank db a b ->
                               count_of db b <= count_of db a)
    by (unfold ranked_before; intros a b; lia).
  destruct (topStores_mapped db (firstn 5 sorted) Hrange Hsmall)
    as (ts & Hts & Hall).
  { intros s Hs. apply (ok_owner _ Hok).
    apply (Permutation_in _ Hperm). rewrite <- Hsplit.
    apply in_or_app. now left. }
  unfold get_admin_dashboard. behind_admin Hauth Hrole.
  unfold try_catch, bind, read, ret. unfold store_findMany_top.
  fold sorted. rewrite Hts.
  eexists. exists (firstn 5 sorted), (skipn 5 sorted).
  split; [reflexivity|].
  cbn [totalUsers totalStores d_totalRatings usersByRole topStores].
  assert (Hlen : List.length ts = Nat.min 5 (List.length (stores db))).
  { rewrite <- (Forall2_length Hall), length_firstn.
    now rewrite (Permutation_length Hperm). }
  do 3 (split; [reflexivity|]).
  split; [intros r n; rewrite <- count_role_users_with_role;
          apply roleCounts_spec|].
  split; [rewrite Hlen; apply Nat.le_min_l|].
  split; [exact Hlen|].
  split; [exact Hall|].
  split; [now rewrite Hsplit|].
  split; [exact (sorted_weaker _ _ _ Hcount Hs1)|].
  split; [intros a b Ha Hb; apply Hcount; now apply Hs2|].
  split; [exact Hs1|exact Hs2].
Qed.

(** *** Tokens *)

Lemma login_token (compare : jsstring -> jsstring -> bool) (now0 : Z)
  (email password : jsstring) (db db0 : Db) (tk : Token) (view : UserView) :
  post_login compare now0 email password db = (json (TokenUser tk view), db0) ->
  exists u, user_findUnique_email db email = Some u
            /\ tk = jwt_sign (u_id u) (u_role u) now0
            /\ db0 = db.
Proof.
  unfold post_login, route. cbn [middleware run_chain].
  unfold try_catch, bind, read, ret.
  destruct (validateEmail email); cbn; [|discriminate].
  destruct (user_findUnique_email db email) as [u|]; [|discriminate].
  destruct (compare password (u_password u)); cbn; [|discriminate].
  intros E. injection E as <- _ <-. now exists u.
Qed.

(** C10: the token of a login carries the role the user has at that
    moment and expires 24 hours later.  Until then every middleware
    chain and the role check of the rating route decide on the token's
    role, whatever the database holds by then (a changed role of the
    user included); from the expiry on the token is refused. *)
Theorem authorization_uses_role_at_login :
  forall (compare : jsstring -> jsstring -> bool) (now0 : Z)
         (email password : jsstring) (db db0 : Db) (tk : Token)
         (view : UserView),
    post_login compare now0 email password db
    = (json (TokenUser tk view), db0) ->
    exists u,
      user_findUnique_email db email = Some u
      /\ tok_id tk = u_id u
      /\ tok_role tk = u_role u
      /\ tok_exp tk = now0 + 86400
      /\ (forall now, now < now0 + 86400 ->
            run_chain Auth (Bearer tk) now = inr tk
            /\ run_chain AuthAdmin (Bearer tk) now
               = (if role_eqb (u_role u) ADMIN then inr tk
                  else inl (error 403 "Admin access required"))
            /\ run_chain AuthOwner (Bearer tk) now
               = (if role_eqb (u_role u) OWNER then inr tk
                  else inl (error 403 "Store owner access required"))
            /\ (forall r,
                  answered (run_chain (middleware r) (Bearer tk) now)
                  = match required_role (middleware r) with
                    | Some role => negb (role_eqb (u_role u) role)
                    | None => false
                    end)
            /\ forall db' id rating,
                 status (fst (post_stores_id_rate (Bearer tk) now id rating db'))
                 = 403
                 <-> u_role u <> USER)
      /\ (forall now, now0 + 86400 <= now ->
            authMiddleware (Bearer tk) now = inl (error 403 "Invalid token")).
Proof.
  intros compare now0 email password db db0 tk view Hlogin.
  destruct (login_token _ _ _ _ _ _ _ _ Hlogin) as (u & Hu & -> & _).
  exists u. cbn [jwt_sign tok_id tok_role tok_exp].
  do 4 (split; [reflexivity || exact Hu|]).
  split.
  - intros now Hnow.
    assert (Hauth : authMiddleware (Bearer (jwt_sign (u_id u) (u_role u) now0))
                                   now
                    = inr (jwt_sign (u_id u) (u_role u) now0)).
    { unfold authMiddleware, jwt_verify. cbn [jwt_sign tok_exp].
      now replace (now <? now0 + 86400) with true
        by (symmetry; apply Z.ltb_lt; lia). }
    assert (Hadmin : run_chain AuthAdmin
                       (Bearer (jwt_sign (u_id u) (u_role u) now0)) now
                     = (if role_eqb (u_role u) ADMIN
                        then inr (jwt_sign (u_id u) (u_role u) now0)
                        else inl (error 403 "Admin access required"))).
    { cbn [run_chain]. rewrite Hauth. unfold adminMiddleware.
      cbn [jwt_sign tok_role]. now destruct (role_eqb (u_role u) ADMIN). }
    assert (Howner : run_chain AuthOwner
                       (Bearer (jwt_sign (u_id u) (u_role u) now0)) now
                     = (if role_eqb (u_role u) OWNER
                        then inr (jwt_sign (u_id u) (u_role u) now0)
                        else inl (error 403 "Store owner access required"))).
    { cbn [run_chain]. rewrite Hauth. unfold ownerMiddleware.
      cbn [jwt_sign tok_role]. now destruct (role_eqb (u_role u) OWNER). }
    split; [exact Hauth|].
    split; [exact Hadmin|]. split; [exact Howner|]. split.
    + intros r.
      destruct r; cbn [middleware required_role];
        try reflexivity;
        try (change (run_chain Auth ?h ?n) with (authMiddleware h n);
             now rewrite Hauth);
        try (rewrite Hadmin; now destruct (role_eqb (u_role u) ADMIN));
        rewrite Howner; now destruct (role_eqb (u_role u) OWNER).
    + intros db' id rating.
      apply (rate_403_iff _ _ _ Hauth db' id rating).
  - intros now Hnow. unfold authMiddleware, jwt_verify.
    cbn [jwt_sign tok_exp].
    now replace (now <? now0 + 86400) with false
      by (symmetry; apply Z.ltb_ge; lia).
Qed.

(** *** Responses that are not the taxonomy's *)

Lemma rating_deleteMany_none (db : Db) (storeId : Z) :
  (forall r, In r (ratings db) -> store_findUnique db (r_storeId r) <> None) ->
  store_findUnique db storeId = None ->
  rating_deleteMany db storeId = db.
Proof.
  intros Hfk Hs. unfold rating_deleteMany, set_ratings.
  replace (filter (fun r => negb (r_storeId r =? storeId)) (ratings db))
    with (ratings db); [now destruct db|].
  symmetry. apply forallb_filter_id. apply forallb_forall. intros r Hr.
  apply negb_true_iff, Z.eqb_neq. intros E.
  apply (Hfk r Hr). now rewrite E.
Qed.


(** C8: rating a store that does not exist is answered 404 and changes
    nothing.  The other routes with an id have no such test: for a
    user that does not exist the delete answers 500 (the handler reads
    a field of [null]) and the update answers 500 (the Prisma call
    throws P2025); for a store that does not exist the update and the
    delete answer 500 (P2025).  An id beyond the 32 bits of the column
    is refused by every Prisma call it is passed to, and the five
    routes answer 500.  Nothing is changed in any of these cases. *)
Theorem missing_id_is_404_only_when_rating :
  forall (h : AuthHeader) (now : Z) (caller : Token) (db : Db) (id : Z),
    db_ok db ->
    authMiddleware h now = inr caller ->
    (tok_role caller = USER ->
     store_findUnique db id = None ->
     forall v, 1 <= v <= 5 ->
       post_stores_id_rate h now (Some id) (JNumber (inject_Z v)) db
       = (if int32 id then error 404 "Store not found"
          else {| status := 500; body := ErrorOf PrismaValidation |}, db))
    /\ (tok_role caller = ADMIN ->
        user_findUnique db id = None ->
        delete_admin_users_id h now (Some id) db
        = ({| status := 500;
              body := ErrorOf (if int32 id then TypeError
                               else PrismaValidation) |}, db)
        /\ forall name email role r,
             validateName name = true -> validateEmail email = true ->
             role_of_string role = Some r ->
             put_admin_users_id h now (Some id) name email role db
             = ({| status := 500;
                   body := ErrorOf (if int32 id then P2025
                                    else PrismaValidation) |}, db))
    /\ (tok_role caller = ADMIN ->
        store_findUnique db id = None ->
        delete_admin_stores_id h now (Some id) db
        = ({| status := 500;
              body := ErrorOf (if int32 id then P2025
                               else PrismaValidation) |}, db)
        /\ forall name address ownerId o,
             validateName name = true -> validateAddress address = true ->
             user_findUnique db ownerId = Some o -> u_role o = OWNER ->
             put_admin_stores_id h now (Some id) name address
               (JNumber (inject_Z ownerId)) db
             = ({| status := 500;
                   body := ErrorOf (if int32 id then P2025
                                    else PrismaValidation) |}, db)).
Proof.
  intros h now caller db id Hok Hauth. split; [|split].
  - intros Hrole Hs v Hv. unfold post_stores_id_rate, route.
    cbn [middleware]. rewrite (run_auth _ _ _ Hauth), Hrole.
    cbn [role_eqb negb]. rewrite rating_rejected_int.
    replace ((1 <=? v) && (v <=? 5)) with true
      by (symmetry; apply andb_true_iff; split; apply Z.leb_le; lia).
    cbn [negb]. steps. rewrite Hs. now destruct (int32 id).
  - intros Hrole Hu. split.
    + unfold delete_admin_users_id. behind_admin Hauth Hrole.
      steps. rewrite Hu. cbn [option_map]. now destruct (int32 id).
    + intros name email role r Hname Hemail Hr.
      unfold put_admin_users_id. behind_admin Hauth Hrole.
      rewrite Hname, Hemail, Hr. cbn [negb]. steps. unfold user_update.
      rewrite Hu. now destruct (int32 id).
  - intros Hrole Hs. split.
    + unfold delete_admin_stores_id. behind_admin Hauth Hrole.
      steps. rewrite (rating_deleteMany_none db id (ok_rating_store _ Hok) Hs).
      unfold store_delete. rewrite Hs. now destruct (int32 id).
    + intros name address ownerId o Hname Haddr Ho Hor.
      unfold put_admin_stores_id. behind_admin Hauth Hrole.
      rewrite Hname, Haddr. cbn [negb]. steps.
      rewrite as_int_inject, Ho. unfold not_an_owner. rewrite Hor.
      cbn [role_eqb negb]. unfold store_update. rewrite Hs.
      now destruct (int32 id).
Qed.

(** *** The handlers preserve the invariants *)

Lemma found_iff {A} (key : A -> Z) (id : Z) (l : list A) :
  find (fun y => key y =? id) l <> None <-> In id (map key l).
Proof.
  induction l as [|y l IH]; cbn.
  - split; [intros H; now elim H|intros []].
  - destruct (Z.eqb_spec (key y) id) as [E|E].
    + split; [now left|discriminate].
    + rewrite IH. split; [now right|intros [H|H]; [now elim E|exact H]].
Qed.


Lemma map_key_replace {A} (key : A -> Z) (id : Z) (x' : A) (l : list A) :
  key x' = id ->
  map key (map (fun y => if key y =? id then x' else y) l) = map key l.
Proof.
  intros Hk. rewrite map_map. apply map_ext. intros y.
  destruct (Z.eqb_spec (key y) id); congruence.
Qed.

Lemma in_map_replace {A} (key : A -> Z) (id : Z) (x' : A) (l : list A) (y : A) :
  In y (map (fun y => if key y =? id then x' else y) l) ->
  y = x' \/ In y l.
Proof.
  intros H. apply in_map_iff in H. destruct H as (z & <- & Hz).
  destruct (key z =? id); auto.
Qed.

Lemma existsb_false_in {A} (p : A -> bool) (l : list A) :
  existsb p l = false -> forall x, In x l -> p x = false.
Proof.
  intros H x Hx. destruct (p x) eqn:E; [|reflexivity].
  rewrite <- H. symmetry. apply existsb_exists. now exists x.
Qed.











Lemma preserves_ret {A} (a : A) : preserves (ret a).
Proof. intros db H. exact H. Qed.

Lemma preserves_throw {A} (e : Exn) : preserves (@throw A e).
Proof. intros db H. exact H. Qed.

Lemma preserves_read {A} (f : Db -> A) : preserves (read f).
Proof. intros db H. exact H. Qed.

Lemma preserves_bind {A B} (m : M A) (k : A -> M B) :
  preserves m -> (forall a, preserves (k a)) -> preserves (bind m k).
Proof.
  intros Hm Hk db H. unfold bind. specialize (Hm db H).
  destruct (m db) as [[a|e] db1]; cbn in *; [now apply Hk|exact Hm].
Qed.

Lemma preserves_write {A} (f : Db -> Result (A * Db)) :
  (forall db a db', state_ok db -> f db = Ok (a, db') -> state_ok db') ->
  preserves (write f).
Proof.
  intros Hf db H. unfold write. specialize (Hf db).
  destruct (f db) as [[a db1]|e]; cbn; [now apply (Hf a)|exact H].
Qed.

Lemma preserves_int_arg (id : option Z) : preserves (int_arg id).
Proof. destruct id; [apply preserves_ret|apply preserves_throw]. Qed.

Lemma preserves_int_field (v : jsval) : preserves (int_field v).
Proof.
  unfold int_field. destruct (as_int v);
    [apply preserves_ret|apply preserves_throw].
Qed.

Lemma preserves_where_id {A} (found : Db -> Z -> option A) (id : Z) :
  preserves (where_id found id).
Proof.
  intros db H. unfold where_id.
  destruct (found db id); [exact H|]. now destruct (int32 id).
Qed.


Lemma try_catch_ok (m : M Response) (db : Db) :
  preserves m -> state_ok db -> state_ok (snd (try_catch m db)).
Proof.
  intros Hm H. unfold try_catch. specialize (Hm db H).
  now destruct (m db) as [[resp|e] db1].
Qed.


Lemma route_ok (r : Route) (h : AuthHeader) (now : Z)
  (handler : ReqUser (middleware r) -> Db -> Response * Db) (db : Db) :
  (forall user, state_ok db -> state_ok (snd (handler user db))) ->
  state_ok db -> state_ok (snd (route r h now handler db)).
Proof.
  intros Hh H. unfold route.
  destruct (run_chain (middleware r) h now) as [resp|user]; [exact H|].
  now apply Hh.
Qed.

Ltac preserve :=
  repeat first
    [ apply preserves_ret | apply preserves_throw | apply preserves_read
    | apply preserves_int_arg | apply preserves_int_field
    | apply preserves_where_id
    | apply preserves_bind; [|intro]
    | match goal with
      | |- preserves (if ?c then _ else _) => destruct c
      | |- preserves (match ?x with Some _ => _ | None => _ end) => destruct x
      | |- preserves (match ?x with (_, _) => _ end) => destruct x
      end ].









(** ** The rest of the server *)

(** *** What an accepted email looks like *)

Lemma inner_dot_split (l : jsstring) :
  inner_dot l = true <-> exists a b, l = a ++ 46 :: b /\ b <> [].
Proof.
  induction l as [|c l IH]; cbn.
  - split; [discriminate|]. intros (a & b & E & _). now destruct a.
  - rewrite orb_true_iff, andb_true_iff, Z.eqb_eq, negb_true_iff, IH.
    split.
    + intros [[-> Hl]|(a & b & -> & Hb)].
      * exists [], l. split; [reflexivity|]. intros ->. discriminate.
      * exists (c :: a), b. now split.
    + intros (a & b & E & Hb). destruct a as [|x a]; cbn in E.
      * injection E as -> ->. left. split; [reflexivity|].
        destruct b; [now elim Hb|reflexivity].
      * injection E as -> ->. right. now exists a, b.
Qed.

Lemma local_then_domain_split (seen : bool) (l : jsstring) :
  local_then_domain seen l = true <->
  exists loc rest,
    l = loc ++ 64 :: rest /\ forallb plain loc = true
    /\ (seen = true \/ loc <> []) /\ domain_ok rest = true.
Proof.
  revert seen. induction l as [|c l IH]; intros seen; cbn.
  - split; [discriminate|]. intros (loc & rest & E & _). now destruct loc.
  - destruct (Z.eqb_spec c 64) as [->|Hc].
    + rewrite andb_true_iff. split.
      * intros [-> Hd]. exists [], l. repeat split; auto.
      * intros (loc & rest & E & Hp & Hs & Hd).
        destruct loc as [|x loc]; cbn in E.
        -- injection E as ->. split; [|exact Hd].
           destruct Hs as [Hs|Hs]; [exact Hs|now elim Hs].
        -- injection E as <- _. cbn in Hp. discriminate.
    + rewrite andb_true_iff, IH. split.
      * intros (Hp & loc & rest & -> & Hl & _ & Hd).
        exists (c :: loc), rest. cbn. rewrite Hp, Hl.
        repeat split; auto. right. discriminate.
      * intros (loc & rest & E & Hp & _ & Hd).
        destruct loc as [|x loc]; cbn in E; injection E as -> ->;
          [now elim Hc|].
        cbn in Hp. apply andb_true_iff in Hp. destruct Hp as [Hx Hp].
        split; [exact Hx|]. exists loc, rest. repeat split; auto.
Qed.

Lemma domain_ok_split (l : jsstring) :
  domain_ok l = true <->
  exists d1 d2, l = d1 ++ 46 :: d2 /\ d1 <> [] /\ d2 <> []
                /\ forallb plain d1 = true /\ forallb plain d2 = true.
Proof.
  destruct l as [|c l].
  - cbn. split; [discriminate|]. intros (d1 & d2 & E & _). now destruct d1.
  - unfold domain_ok. rewrite andb_true_iff, inner_dot_split. split.
    + intros (Hp & a & b & -> & Hb). exists (c :: a), b.
      change (c :: a ++ 46 :: b) with ((c :: a) ++ 46 :: b) in Hp.
      rewrite forallb_app in Hp. apply andb_true_iff in Hp.
      destruct Hp as [Hp1 Hp2]. cbn [forallb] in Hp2.
      apply andb_true_iff in Hp2.
      repeat split; try tauto. discriminate.
    + intros (d1 & d2 & E & H1 & H2 & Hp1 & Hp2).
      destruct d1 as [|x a]; [now elim H1|]. cbn in E. injection E as -> ->.
      split.
      * change (x :: a ++ 46 :: d2) with ((x :: a) ++ 46 :: d2).
        rewrite forallb_app, Hp1. cbn [forallb andb]. now rewrite Hp2.
      * now exists a, d2.
Qed.

(** X1: the emails the server accepts are those of the shape
    local @ domain . tld: three parts that are not empty and hold no
    white space and no @, joined by an @ and a dot. *)
Theorem validateEmail_shape :
  forall email : jsstring,
    validateEmail email = true <->
    exists loc d1 d2,
      email = loc ++ 64 :: d1 ++ 46 :: d2
      /\ loc <> [] /\ d1 <> [] /\ d2 <> []
      /\ forallb plain loc = true
      /\ forallb plain d1 = true
      /\ forallb plain d2 = true.
Proof.
  intros email. unfold validateEmail. rewrite local_then_domain_split. split.
  - intros (loc & rest & -> & Hp & Hs & Hd).
    apply domain_ok_split in Hd.
    destruct Hd as (d1 & d2 & -> & H1 & H2 & Hp1 & Hp2).
    exists loc, d1, d2. repeat split; auto.
    destruct Hs as [Hs|Hs]; [discriminate|exact Hs].
  - intros (loc & d1 & d2 & -> & H0 & H1 & H2 & Hp & Hp1 & Hp2).
    exists loc, (d1 ++ 46 :: d2). repeat split; auto.
    apply domain_ok_split. exists d1, d2. repeat split; auto.
Qed.

(** *** Bounds of the average *)

(** X2: the averageRating reported for ratings in [1, 5] lies between
    1.0 and 5.0. *)
Theorem average_between_1_and_5 :
  forall rs : list Rating,
    rs <> [] ->
    Forall (fun r => 1 <= r_rating r <= 5) rs ->
    Z.of_nat (List.length rs) < 2 ^ 46 ->
    (1 <= average rs <= 5)%Q.
Proof.
  intros rs Hne Hrange Hsmall.
  destruct (average_digits rs Hne Hrange Hsmall) as (n & -> & Hn).
  pose proof (sum_ratings_bounds rs Hrange) as Hsum.
  assert (Hc : 0 < Z.of_nat (List.length rs))
    by (destruct rs; [now elim Hne|cbn; lia]).
  unfold Qle. cbn [Qnum Qden]. split; nia.
Qed.

(** X3: when all ratings of a store have the same value, that value is
    the averageRating, exactly. *)
Theorem average_of_equal_ratings :
  forall (rs : list Rating) (v : Z),
    rs <> [] ->
    1 <= v <= 5 ->
    Forall (fun r => r_rating r = v) rs ->
    Z.of_nat (List.length rs) < 2 ^ 46 ->
    average rs = Qmake (10 * v) 10.
Proof.
  intros rs v Hne Hv Hall Hsmall.
  assert (Hrange : Forall (fun r => 1 <= r_rating r <= 5) rs)
    by (eapply Forall_impl; [|exact Hall]; cbn; intros r ->; exact Hv).
  destruct (average_digits rs Hne Hrange Hsmall) as (n & -> & Hn).
  assert (Hsum : sum_ratings rs = v * Z.of_nat (List.length rs)).
  { unfold sum_ratings.
    assert (G : forall a, fold_left (fun a r => a + r_rating r) rs a
                          = a + v * Z.of_nat (List.length rs)).
    { clear Hne Hrange Hsmall Hn.
      induction Hall as [|r rs Hr _ IH]; intros a; cbn [fold_left List.length].
      - lia.
      - rewrite IH, Hr. lia. }
    apply (G 0). }
  assert (Hc : 0 < Z.of_nat (List.length rs))
    by (destruct rs; [now elim Hne|cbn; lia]).
  rewrite Hsum in Hn. f_equal. nia.
Qed.

(** *** Requests that are refused, and requests that only read *)

Lemma route_refused (r : Route) (h : AuthHeader) (now : Z) (resp : Response)
  (handler : ReqUser (middleware r) -> Db -> Response * Db) (db : Db) :
  middleware r <> NoMiddleware ->
  authMiddleware h now = inl resp ->
  route r h now handler db = (resp, db).
Proof.
  intros Hm Hauth. unfold route. revert handler.
  destruct (middleware r); [now elim Hm| | |]; intros handler; cbn;
    now rewrite Hauth.
Qed.

Lemma route_not_admin (r : Route) (h : AuthHeader) (now : Z) (user : Token)
  (handler : ReqUser (middleware r) -> Db -> Response * Db) (db : Db) :
  middleware r = AuthAdmin ->
  authMiddleware h now = inr user ->
  tok_role user <> ADMIN ->
  route r h now handler db = (error 403 "Admin access required", db).
Proof.
  intros Hm Hauth Hrole. unfold route. revert handler. rewrite Hm.
  intros handler. cbn. rewrite Hauth. unfold adminMiddleware.
  apply role_eqb_neq in Hrole. now rewrite Hrole.
Qed.

(** X4: a request without a valid token (no header, a token that
    [jwt.verify] rejects, an expired token) is answered 401 or 403 by
    every route behind [authMiddleware], whatever else it carries, and
    changes nothing. *)
Theorem refused_token_changes_nothing :
  forall (h : AuthHeader) (now : Z) (resp : Response),
    authMiddleware h now = inl resp ->
    (resp = error 401 "No token provided" \/ resp = error 403 "Invalid token")
    /\ forall db : Db,
         (forall hash new_id name email password role,
            post_signup hash new_id h now name email password role db
            = (resp, db))
         /\ (forall hash compare current new,
               put_users_password hash compare h now current new db
               = (resp, db))
         /\ (forall c search role,
               get_admin_users c h now search role db = (inl resp, db))
         /\ (forall id name email role,
               put_admin_users_id h now id name email role db = (resp, db))
         /\ (forall id, delete_admin_users_id h now id db = (resp, db))
         /\ (forall name address ownerId,
               post_stores h now name address ownerId db = (resp, db))
         /\ (forall c search, get_admin_stores c h now search db = (resp, db))
         /\ (forall id name address ownerId,
               put_admin_stores_id h now id name address ownerId db
               = (resp, db))
         /\ (forall id, delete_admin_stores_id h now id db = (resp, db))
         /\ (forall id rating,
               post_stores_id_rate h now id rating db = (resp, db))
         /\ (forall rank, get_admin_dashboard rank h now db = (resp, db))
         /\ get_owner_stores h now db = (resp, db).
Proof.
  intros h now resp Hauth. split.
  - unfold authMiddleware in Hauth. destruct h as [| |t]; cbn in Hauth.
    + injection Hauth as <-. now left.
    + injection Hauth as <-. now right.
    + destruct (now <? tok_exp t); [discriminate|].
      injection Hauth as <-. now right.
  - intros db.
    repeat match goal with |- _ /\ _ => split end; intros;
      try (apply route_refused; [discriminate|exact Hauth]).
    unfold get_admin_users. cbn [middleware run_chain]. now rewrite Hauth.
Qed.

(** X5: with a valid token of a role other than ADMIN every route
    registered with [adminMiddleware] answers 403 and changes nothing;
    with a role other than OWNER so does the owner's listing. *)
Theorem wrong_role_changes_nothing :
  forall (h : AuthHeader) (now : Z) (user : Token),
    authMiddleware h now = inr user ->
    (tok_role user <> ADMIN ->
     forall db : Db,
       (forall hash new_id name email password role,
          post_signup hash new_id h now name email password role db
          = (error 403 "Admin access required", db))
       /\ (forall c search role,
             get_admin_users c h now search role db
             = (inl (error 403 "Admin access required"), db))
       /\ (forall id name email role,
             put_admin_users_id h now id name email role db
             = (error 403 "Admin access required", db))
       /\ (forall id,
             delete_admin_users_id h now id db
             = (error 403 "Admin access required", db))
       /\ (forall name address ownerId,
             post_stores h now name address ownerId db
             = (error 403 "Admin access required", db))
       /\ (forall c search,
             get_admin_stores c h now search db
             = (error 403 "Admin access required", db))
       /\ (forall id name address ownerId,
             put_admin_stores_id h now id name address ownerId db
             = (error 403 "Admin access required", db))
       /\ (forall id,
             delete_admin_stores_id h now id db
             = (error 403 "Admin access required", db))
       /\ (forall rank,
             get_admin_dashboard rank h now db
             = (error 403 "Admin access required", db)))
    /\ (tok_role user <> OWNER ->
        forall db : Db,
          get_owner_stores h now db
          = (error 403 "Store owner access required", db)).
Proof.
  intros h now user Hauth. split.
  - intros Hrole db.
    repeat match goal with |- _ /\ _ => split end; intros;
      try (apply (route_not_admin _ _ _ user); [reflexivity|exact Hauth|exact Hrole]).
    unfold get_admin_users. cbn [middleware run_chain]. rewrite Hauth.
    unfold adminMiddleware. apply role_eqb_neq in Hrole. now rewrite Hrole.
  - intros Hrole db. unfold get_owner_stores, route. cbn [middleware run_chain].
    rewrite Hauth. unfold ownerMiddleware. apply role_eqb_neq in Hrole.
    now rewrite Hrole.
Qed.

(** X6: the login, the three listings of stores, the list of users and
    the dashboard never write: whatever the request and the answer, the
    database is afterwards what it was. *)
Theorem reading_routes_change_nothing :
  forall db : Db,
    (forall compare now email password,
       snd (post_login compare now email password db) = db)
    /\ (forall c now search, snd (get_stores c now search db) = db)
    /\ (forall c h now search, snd (get_admin_stores c h now search db) = db)
    /\ (forall h now, snd (get_owner_stores h now db) = db)
    /\ (forall c h now search role,
          snd (get_admin_users c h now search role db) = db)
    /\ (forall rank h now, snd (get_admin_dashboard rank h now db) = db).
Proof.
  intros db.
  repeat match goal with |- _ /\ _ => split end; intros.
  - unfold post_login, route. cbn [middleware run_chain].
    unfold try_catch, bind, read, ret.
    destruct (validateEmail email); cbn; [|reflexivity].
    destruct (user_findUnique_email db email) as [u|]; [|reflexivity].
    now destruct (compare password (u_password u)).
  - reflexivity.
  - unfold get_admin_stores, route.
    now destruct (run_chain (middleware GetAdminStores) h now).
  - unfold get_owner_stores, route.
    now destruct (run_chain (middleware GetOwnerStores) h now).
  - unfold get_admin_users.
    now destruct (run_chain (middleware GetAdminUsers) h now).
  - unfold get_admin_dashboard, route.
    destruct (run_chain (middleware GetAdminDashboard) h now);
      [reflexivity|].
    unfold try_catch, bind, read, ret.
    now destruct (map_result (topStoreWithAvg db) (store_findMany_top rank db)).
Qed.

(** *** Signup and passwords *)

Lemma find_app_none {A} (p : A -> bool) (l l' : list A) :
  find p l = None -> find p (l ++ l') = find p l'.
Proof.
  induction l as [|x l IH]; cbn; [reflexivity|].
  destruct (p x); [discriminate|exact IH].
Qed.

Lemma find_none_of {A} (p : A -> bool) (l : list A) :
  (forall x, In x l -> p x = false) -> find p l = None.
Proof.
  intros H. induction l as [|x l IH]; cbn; [reflexivity|].
  rewrite (H x (or_introl eq_refl)). apply IH. intros y Hy. apply H. now right.
Qed.

Lemma str_eqb_refl (a : jsstring) : str_eqb a a = true.
Proof. now apply str_eqb_eq. Qed.

Lemma str_eqb_neq (a b : jsstring) : a <> b -> str_eqb a b = false.
Proof.
  intros H. destruct (str_eqb a b) eqn:E; [|reflexivity].
  apply str_eqb_eq in E. now elim H.
Qed.

(** X7: an ADMIN's signup with a valid name, email, password and role
    and an email no user has yet answers 200 and adds one user, with
    the id of the database, the role asked for and the hash as its
    password, and touches nothing else.  A login with that email and
    password then succeeds, with a token of the new id and role. *)
Theorem signup_then_login :
  forall (hash : jsstring -> jsstring) (compare : jsstring -> jsstring -> bool)
         (new_id : Z) (h : AuthHeader) (now : Z) (admin : Token)
         (name email password role : jsstring) (r : Role) (db : Db),
    authMiddleware h now = inr admin ->
    tok_role admin = ADMIN ->
    validateName name = true ->
    validateEmail email = true ->
    validatePassword password = true ->
    role_of_string role = Some r ->
    (forall v, In v (users db) -> u_email v <> email) ->
    compare password (hash password) = true ->
    exists u db',
      post_signup hash new_id h now name email password role db
      = (json (MessageUser "User created" (select_id_name_email_role u)), db')
      /\ users db' = users db ++ [u]
      /\ u_id u = new_id /\ u_name u = name /\ u_email u = email
      /\ u_role u = r /\ u_password u = hash password
      /\ stores db' = stores db /\ ratings db' = ratings db
      /\ forall now',
           post_login compare now' email password db'
           = (json (TokenUser (jwt_sign new_id r now')
                      (select_id_name_email_role u)), db').
Proof.
  intros hash compare new_id h now admin name email password role r db
    Hauth Hrole Hname Hemail Hpass Hr Hfree Hcmp.
  unfold post_signup. behind_admin Hauth Hrole.
  unfold try_catch_P2002, bind, write, ret, user_create.
  rewrite Hname, Hemail, Hpass, Hr. cbn [negb].
  rewrite existsb_false
    by (intros v Hv; apply str_eqb_neq; now apply Hfree).
  eexists. eexists. split; [reflexivity|]. cbn.
  repeat split.
  intros now'. unfold post_login, route. cbn [middleware run_chain].
  unfold try_catch, bind, read, ret. rewrite Hemail. cbn [negb].
  unfold user_findUnique_email. cbn [users set_users].
  rewrite find_app_none
    by (apply find_none_of; intros v Hv; apply str_eqb_neq; now apply Hfree).
  cbn. rewrite str_eqb_refl. cbn. now rewrite Hcmp.
Qed.

(** X8: an ADMIN's signup with an email a user already has is answered
    400, Email already exists, and adds nothing; the validation of the
    name, the email, the password and the role comes first. *)
Theorem signup_duplicate_email :
  forall (hash : jsstring -> jsstring) (new_id : Z) (h : AuthHeader) (now : Z)
         (admin : Token) (name email password role : jsstring) (db : Db)
         (v : User),
    authMiddleware h now = inr admin ->
    tok_role admin = ADMIN ->
    In v (users db) -> u_email v = email ->
    status (fst (post_signup hash new_id h now name email password role db))
    = 400
    /\ snd (post_signup hash new_id h now name email password role db) = db
    /\ (validateName name = true -> validateEmail email = true ->
        validatePassword password = true -> role_of_string role <> None ->
        post_signup hash new_id h now name email password role db
        = (error 400 "Email already exists", db)).
Proof.
  intros hash new_id h now admin name email password role db v
    Hauth Hrole Hin Hv.
  assert (Hdup : existsb (fun v => str_eqb (u_email v) email) (users db)
                 = true).
  { apply existsb_exists. exists v. split; [exact Hin|].
    rewrite Hv. apply str_eqb_refl. }
  unfold post_signup. behind_admin Hauth Hrole.
  unfold try_catch_P2002, bind, write, ret, user_create.
  destruct (validateName name); cbn [negb];
    [|repeat split; intros; discriminate].
  destruct (validateEmail email); cbn [negb];
    [|repeat split; intros; discriminate].
  destruct (validatePassword password); cbn [negb];
    [|repeat split; intros; discriminate].
  destruct (role_of_string role) as [r|]; cbn;
    [|repeat split; intros; try discriminate; now elim H2].
  rewrite Hdup. repeat split.
Qed.

Lemma find_email_replaced (l1 l2 : list User) (u u' : User) :
  NoDup (map u_email (l1 ++ u :: l2)) ->
  u_email u' = u_email u ->
  find (fun v => str_eqb (u_email v) (u_email u)) (l1 ++ u' :: l2) = Some u'.
Proof.
  intros Hnd He. rewrite find_app_none.
  - cbn. now rewrite He, str_eqb_refl.
  - apply find_none_of. intros v Hv. apply str_eqb_neq. intros E.
    rewrite map_app in Hnd. cbn in Hnd. apply NoDup_remove_2 in Hnd.
    apply Hnd. apply in_or_app. left. rewrite <- E. now apply in_map.
Qed.

(** X9: a change of password with the right current password and a
    valid new one answers 200 and replaces the password of the
    caller's row by the hash of the new one; ids, names, emails and
    roles of all users, and all stores and ratings, stay.  A login with
    the caller's email and the new password then succeeds. *)
Theorem password_change_then_login :
  forall (hash : jsstring -> jsstring) (compare : jsstring -> jsstring -> bool)
         (h : AuthHeader) (now : Z) (caller : Token)
         (current new : jsstring) (db : Db) (u : User),
    db_ok db ->
    authMiddleware h now = inr caller ->
    user_findUnique db (tok_id caller) = Some u ->
    validatePassword new = true ->
    compare current (u_password u) = true ->
    compare new (hash new) = true ->
    validateEmail (u_email u) = true ->
    exists u' db',
      put_users_password hash compare h now current new db
      = (json (Message "Password updated successfully"), db')
      /\ user_findUnique db' (tok_id caller) = Some u'
      /\ u_password u' = hash new
      /\ (u_id u', u_name u', u_email u', u_role u', u_createdAt u')
         = (u_id u, u_name u, u_email u, u_role u, u_createdAt u)
      /\ (forall v, In v (users db') -> v = u' \/ In v (users db))
      /\ List.length (users db') = List.length (users db)
      /\ stores db' = stores db /\ ratings db' = ratings db
      /\ forall now',
           post_login compare now' (u_email u) new db'
           = (json (TokenUser (jwt_sign (u_id u) (u_role u) now')
                      (select_id_name_email_role u')), db').
Proof.
  intros hash compare h now caller current new db u
    Hok Hauth Hu Hnew Hcur Hcmp Hvalid.
  unfold put_users_password, route. cbn [middleware].
  rewrite (run_auth _ _ _ Hauth).
  unfold try_catch, bind, read, write, ret, user_update_password.
  rewrite Hnew. cbn [negb]. rewrite Hu, Hcur. cbn [negb]. rewrite Hu.
  set (u' := {| u_id := u_id u; u_name := u_name u; u_email := u_email u;
                u_password := hash new; u_role := u_role u;
                u_createdAt := u_createdAt u |}).
  exists u'. eexists. split; [reflexivity|]. cbn [users stores ratings set_users].
  unfold user_findUnique in Hu. pose proof (find_some_id _ _ _ _ Hu) as [Hin Hid].
  destruct (NoDup_map_split u_id _ _ (ok_user_ids _ Hok) Hin)
    as (l1 & l2 & Hl & Hne).
  assert (Hnew_users :
            map (fun v => if u_id v =? tok_id caller then u' else v) (users db)
            = l1 ++ u' :: l2).
  { rewrite Hl, <- Hid. now apply map_replace_split. }
  split.
  { unfold user_findUnique. cbn [users set_users].
    now apply (find_map_replace u_id) with (x := u). }
  split; [reflexivity|]. split; [reflexivity|]. split.
  { intros v Hv. apply in_map_replace in Hv. exact Hv. }
  split; [now rewrite length_map|]. split; [reflexivity|].
  split; [reflexivity|].
  intros now'. unfold post_login, route. cbn [middleware run_chain].
  unfold try_catch, bind, read, ret.
  rewrite Hvalid. cbn [negb]. unfold user_findUnique_email.
  cbn [users set_users]. rewrite Hnew_users.
  rewrite (find_email_replaced l1 l2 u u');
    [|rewrite <- Hl; apply Hok|reflexivity].
  cbn [u_password u']. now rewrite Hcmp.
Qed.

(** X10: a change of password changes nothing when the new password is
    not valid (400), when the current password is wrong (400), and when
    the user of the token is gone, where the handler reads the password
    of [null] (500). *)
Theorem password_change_refused :
  forall (hash : jsstring -> jsstring) (compare : jsstring -> jsstring -> bool)
         (h : AuthHeader) (now : Z) (caller : Token)
         (current new : jsstring) (db : Db),
    authMiddleware h now = inr caller ->
    (validatePassword new = false ->
     put_users_password hash compare h now current new db
     = (error 400
          "Password must be 8-16 characters with uppercase and special character",
        db))
    /\ (validatePassword new = true ->
        user_findUnique db (tok_id caller) = None ->
        put_users_password hash compare h now current new db
        = ({| status := 500; body := ErrorOf TypeError |}, db))
    /\ (forall u,
          validatePassword new = true ->
          user_findUnique db (tok_id caller) = Some u ->
          compare current (u_password u) = false ->
          put_users_password hash compare h now current new db
          = (error 400 "Current password is incorrect", db)).
Proof.
  intros hash compare h now caller current new db Hauth.
  repeat split; intros;
    unfold put_users_password, route; cbn [middleware];
    rewrite (run_auth _ _ _ Hauth);
    unfold try_catch, bind, read, write, ret, throw.
  - now rewrite H.
  - rewrite H. cbn [negb]. now rewrite H0.
  - rewrite H. cbn [negb]. rewrite H0. now rewrite H1.
Qed.


Lemma user_create_state_ok (db db' : Db) (id createdAt : Z)
  (name email password : jsstring) (role : Role) (u : User) :
  state_ok db -> ~ In id (map u_id (users db)) ->
  user_create db id createdAt name email password role = Ok (u, db') ->
  state_ok db'.
Proof.
  intros [Hok Hrange] Hfresh. unfold user_create.
  destruct (existsb _ (users db)) eqn:Ee; [discriminate|].
  intros E. injection E as <- <-. split; [|exact Hrange].
  assert (Hfound : forall x, user_findUnique db x <> None ->
            find (fun v => u_id v =? x)
                 (users db ++ [{| u_id := id; u_name := name; u_email := email;
                                  u_password := password; u_role := role;
                                  u_createdAt := createdAt |}]) <> None).
  { intros x Hx. apply found_iff. rewrite map_app. apply in_or_app. left.
    now apply found_iff. }
  constructor; cbn [users stores ratings store_seq rating_seq set_users];
    try apply Hok.
  - rewrite map_app. cbn. apply NoDup_snoc; [apply Hok|exact Hfresh].
  - rewrite map_app. cbn. apply NoDup_snoc; [apply Hok|].
    intros Hin. apply in_map_iff in Hin. destruct Hin as (v & Hv & Hvin).
    apply (existsb_false_in _ _ Ee) in Hvin.
    rewrite Hv, str_eqb_refl in Hvin. discriminate.
  - intros s Hs. apply Hfound. now apply (ok_owner _ Hok).
  - intros r Hr. apply Hfound. now apply (ok_rating_user _ Hok).
Qed.

Lemma user_update_password_state_ok (db db' : Db) (id : Z)
  (password : jsstring) (u : User) :
  state_ok db -> user_update_password db id password = Ok (u, db') ->
  state_ok db'.
Proof.
  intros [Hok Hrange]. unfold user_update_password.
  destruct (user_findUnique db id) as [u0|] eqn:Eu; [|discriminate].
  intros E. injection E as <- <-. split; [|exact Hrange].
  unfold user_findUnique in Eu.
  pose proof (find_some_id _ _ _ _ Eu) as [Hin Hid].
  destruct (NoDup_map_split u_id _ _ (ok_user_ids _ Hok) Hin)
    as (l1 & l2 & Hl & Hne).
  set (u' := {| u_id := u_id u0; u_name := u_name u0; u_email := u_email u0;
                u_password := password; u_role := u_role u0;
                u_createdAt := u_createdAt u0 |}).
  assert (Hnew : map (fun v => if u_id v =? id then u' else v) (users db)
                 = l1 ++ u' :: l2)
    by (rewrite Hl, <- Hid; now apply map_replace_split).
  assert (Hids : map u_id (l1 ++ u' :: l2) = map u_id (users db))
    by (rewrite Hl, !map_app; reflexivity).
  constructor; cbn [users stores ratings store_seq rating_seq set_users];
    try apply Hok.
  - rewrite Hnew, Hids. apply Hok.
  - rewrite Hnew.
    replace (map u_email (l1 ++ u' :: l2)) with (map u_email (users db))
      by (rewrite Hl, !map_app; reflexivity).
    apply Hok.
  - intros s Hs. unfold user_findUnique. cbn [users set_users].
    rewrite Hnew. apply found_iff. rewrite Hids. apply found_iff.
    now apply (ok_owner _ Hok).
  - intros r Hr. unfold user_findUnique. cbn [users set_users].
    rewrite Hnew. apply found_iff. rewrite Hids. apply found_iff.
    now apply (ok_rating_user _ Hok).
Qed.

(** X11: the signup, with an id no user has, and the change of
    password keep the constraints of the schema and the range of the
    ratings, whatever the request and the answer. *)
Theorem users_routes_preserve_state_ok :
  forall db : Db,
    state_ok db ->
    (forall hash new_id h now name email password role,
       ~ In new_id (map u_id (users db)) ->
       state_ok (snd (post_signup hash new_id h now name email password role
                        db)))
    /\ (forall hash compare h now current new,
          state_ok (snd (put_users_password hash compare h now current new
                           db))).
Proof.
  intros db H. split; intros.
  - unfold post_signup, route.
    destruct (run_chain (middleware PostSignup) h now); [exact H|].
    unfold try_catch_P2002, bind, write, ret.
    destruct (validateName name); cbn [negb]; [|exact H].
    destruct (validateEmail email); cbn [negb]; [|exact H].
    destruct (validatePassword password); cbn [negb]; [|exact H].
    destruct (role_of_string role) as [role'|]; [|exact H].
    destruct (user_create db new_id now name email (hash password) role')
      as [[u db1]|e] eqn:E; cbn.
    + now apply (user_create_state_ok _ _ _ _ _ _ _ _ _ H H0 E).
    + now destruct e.
  - apply route_ok; [|exact H]. intros user _.
    apply try_catch_ok; [|exact H]. preserve.
    apply preserves_write. intros db0 u' db1 H0 E.
    now apply (user_update_password_state_ok _ _ _ _ _ H0 E).
Qed.

(** *** What a rating writes *)





(** *** The list of users *)

Lemma role_of_string_spec (r : jsstring) (r' : Role) :
  role_of_string r = Some r'
  <-> (r = lit "USER" /\ r' = USER) \/ (r = lit "OWNER" /\ r' = OWNER)
      \/ (r = lit "ADMIN" /\ r' = ADMIN).
Proof.
  unfold role_of_string.
  destruct (str_eqb r (lit "USER")) eqn:E1.
  { apply str_eqb_eq in E1. subst r. split.
    - intros E. injection E as <-. now left.
    - intros [[_ ->]|[[E _]|[E _]]]; [reflexivity|discriminate|discriminate]. }
  destruct (str_eqb r (lit "OWNER")) eqn:E2.
  { apply str_eqb_eq in E2. subst r. split.
    - intros E. injection E as <-. right. now left.
    - intros [[E _]|[[_ ->]|[E _]]]; [discriminate|reflexivity|discriminate]. }
  destruct (str_eqb r (lit "ADMIN")) eqn:E3.
  { apply str_eqb_eq in E3. subst r. split.
    - intros E. injection E as <-. right. now right.
    - intros [[E _]|[[E _]|[_ ->]]]; [discriminate|discriminate|reflexivity]. }
  split; [discriminate|].
  intros [[-> _]|[[-> _]|[-> _]]]; discriminate.
Qed.

Lemma where_users_asked_for (c : Collation) (search role : option jsstring)
  (u : User) :
  where_users c search role u = true <-> user_asked_for c search role u.
Proof.
  unfold where_users, user_asked_for. rewrite andb_true_iff.
  assert (Hsearch :
    match search with
    | None | Some [] => true
    | Some q => contains_insensitive c (u_name u) q
    end = true
    <-> match search with
        | Some (x :: q) => contains_insensitive c (u_name u) (x :: q) = true
        | _ => True
        end)
    by (destruct search as [[|x q]|]; easy).
  assert (Hrole :
    match role with
    | None => true
    | Some r => match role_of_string r with
                | Some r' => role_eqb (u_role u) r'
                | None => true
                end
    end = true
    <-> (role = Some (lit "USER") -> u_role u = USER)
        /\ (role = Some (lit "OWNER") -> u_role u = OWNER)
        /\ (role = Some (lit "ADMIN") -> u_role u = ADMIN)).
  { destruct role as [r|]; [|easy].
    destruct (role_of_string r) as [r'|] eqn:Er.
    - rewrite role_eqb_eq. apply role_of_string_spec in Er.
      destruct Er as [[-> ->]|[[-> ->]|[-> ->]]];
        (split;
         [intros ->; repeat split; intros; try discriminate; reflexivity|]);
        intros (H1 & H2 & H3); auto.
    - split; [|reflexivity]. intros _.
      repeat split; intros E; injection E as ->; discriminate. }
  rewrite Hsearch, Hrole. reflexivity.
Qed.

(** X14: an ADMIN's list of users holds one row for each user the
    database matches by name to the search (every user without a
    search or with an empty one) and whose role is the one asked for,
    and for no other.  What the match of the database is, the handler
    does not decide.  A role that is not USER, OWNER or ADMIN is no
    filter: the answer is that of a request without role. *)
Theorem users_list_filters :
  forall (c : Collation) (h : AuthHeader) (now : Z) (admin : Token)
         (search role : option jsstring) (db : Db),
    authMiddleware h now = inr admin ->
    tok_role admin = ADMIN ->
    exists chosen keep,
      get_admin_users c h now search role db
      = (inr (map (user_row db) chosen), db)
      /\ Permutation chosen (filter keep (users db))
      /\ (forall u, keep u = true <-> user_asked_for c search role u)
      /\ (forall r r' u,
            role = Some r -> role_of_string r = Some r' ->
            In u chosen -> u_role u = r')
      /\ (forall r,
            role = Some r -> role_of_string r = None ->
            get_admin_users c h now search role db
            = get_admin_users c h now search None db).
Proof.
  intros c h now admin search role db Hauth Hrole.
  unfold get_admin_users. cbn [middleware].
  rewrite (run_admin _ _ _ Hauth Hrole).
  eexists. exists (where_users c search role). split; [reflexivity|].
  split; [apply sort_by_perm|].
  split; [intros u; apply where_users_asked_for|]. split.
  - intros r r' u -> Hr Hu.
    apply (Permutation_in _ (sort_by_perm _ _)) in Hu.
    apply filter_In in Hu. destruct Hu as [_ Hw].
    unfold where_users in Hw. rewrite Hr in Hw.
    apply andb_true_iff in Hw. now apply role_eqb_eq.
  - intros r -> Hr. do 4 f_equal. apply filter_ext. intros u.
    unfold where_users. now rewrite Hr.
Qed.

(** *** Totals of the dashboard *)

Lemma count_roles_total (l : list User) :
  Z.of_nat (List.length (filter (fun u => role_eqb (u_role u) USER) l))
  + Z.of_nat (List.length (filter (fun u => role_eqb (u_role u) OWNER) l))
  + Z.of_nat (List.length (filter (fun u => role_eqb (u_role u) ADMIN) l))
  = Z.of_nat (List.length l).
Proof.
  induction l as [|u l IH]; [reflexivity|].
  cbn [filter List.length]. destruct (u_role u); cbn [role_eqb List.length];
    lia.
Qed.

(** X15: the counts of usersByRole add up to totalUsers, and a role is
    left out exactly when no user has it. *)
Theorem role_counts_add_up :
  forall (rank : Store -> Z) (h : AuthHeader) (now : Z) (admin : Token)
         (db : Db) (d : Dashboard),
    authMiddleware h now = inr admin ->
    tok_role admin = ADMIN ->
    fst (get_admin_dashboard rank h now db) = json (Stats d) ->
    sum_counts (usersByRole d) = totalUsers d
    /\ forall r, (forall n, ~ In (r, n) (usersByRole d))
                 <-> forall u, In u (users db) -> u_role u <> r.
Proof.
  intros rank h now admin db d Hauth Hrole.
  unfold get_admin_dashboard. behind_admin Hauth Hrole.
  unfold try_catch, bind, read, ret.
  destruct (map_result (topStoreWithAvg db) (store_findMany_top rank db));
    [|discriminate].
  cbn [fst]. intros E. injection E as <-.
  cbn [usersByRole totalUsers]. split.
  - rewrite <- (count_roles_total (users db)).
    unfold roleCounts, count_role. cbn [map filter snd].
    repeat match goal with
           | |- context [0 <? ?n] => destruct (Z.ltb_spec 0 n)
           end; cbn [sum_counts]; lia.
  - intros r. split.
    + intros Hno u Hu Hr.
      apply (Hno (count_role db r)). apply roleCounts_spec.
      split; [reflexivity|]. unfold count_role.
      assert (Hin : In u (filter (fun v => role_eqb (u_role v) r) (users db)))
        by (apply filter_In; split; [exact Hu|now apply role_eqb_eq]).
      destruct (filter _ (users db)); [destruct Hin|cbn; lia].
    + intros Hno n Hin. apply roleCounts_spec in Hin.
      destruct Hin as [-> Hpos]. unfold count_role in Hpos.
      destruct (filter (fun v => role_eqb (u_role v) r) (users db))
        as [|u l] eqn:Ef; [cbn in Hpos; lia|].
      assert (Hu : In u (filter (fun v => role_eqb (u_role v) r) (users db)))
        by (rewrite Ef; now left).
      apply filter_In in Hu. destruct Hu as [Hu Hr].
      apply role_eqb_eq in Hr. now apply (Hno u).
Qed.

(** *** Writing stores *)

Lemma no_rating_of_next_store (db : Db) :
  db_ok db -> ratings_of_store db (store_seq db) = [].
Proof.
  intros Hok. unfold ratings_of_store. apply filter_none. intros r Hr.
  apply Z.eqb_neq. intros E.
  pose proof (ok_rating_store _ Hok r Hr) as Hs. rewrite E in Hs.
  unfold store_findUnique in Hs.
  destruct (find (fun s => st_id s =? store_seq db) (stores db)) as [s|] eqn:Ef;
    [|now elim Hs].
  apply find_some_id in Ef. destruct Ef as [Hin Hid].
  apply (ok_store_seq _ Hok) in Hin. lia.
Qed.

(** X16: an ADMIN's creation of a store with a valid name and address
    and an OWNER as owner answers 200 and adds one store, with the next
    id of the database, and touches nothing else.  The store is then
    found by its id and is in the public listing, with totalRatings 0
    and averageRating 0. *)
Theorem created_store_is_listed :
  forall (h : AuthHeader) (now : Z) (admin : Token) (name address : jsstring)
         (ownerId : Z) (o : User) (db : Db),
    db_ok db ->
    authMiddleware h now = inr admin ->
    tok_role admin = ADMIN ->
    validateName name = true ->
    validateAddress address = true ->
    user_findUnique db ownerId = Some o ->
    u_role o = OWNER ->
    exists s db',
      post_stores h now name address (JNumber (inject_Z ownerId)) db
      = (json (OneStore {| so_store := s;
                           so_owner := Some (select_id_name_email o) |}), db')
      /\ s = {| st_id := store_seq db; st_name := name; st_address := address;
                st_ownerId := ownerId |}
      /\ stores db' = stores db ++ [s]
      /\ users db' = users db /\ ratings db' = ratings db
      /\ store_findUnique db' (st_id s) = Some s
      /\ forall c now',
           exists l,
             get_stores c now' None db' = (json (Listing l), db')
             /\ exists e, In e l /\ l_store e = s /\ totalRatings e = 0
                          /\ (averageRating e == 0)%Q.
Proof.
  intros h now admin name address ownerId o db Hok Hauth Hrole Hname Haddr
    Ho Hor.
  unfold post_stores. behind_admin Hauth Hrole.
  rewrite Hname, Haddr. cbn [negb]. steps. unfold store_create, not_an_owner.
  rewrite as_int_inject, Ho, Hor. cbn [role_eqb negb].
  rewrite Ho.
  set (s := {| st_id := store_seq db; st_name := name; st_address := address;
               st_ownerId := ownerId |}).
  set (db' := {| users := users db; stores := stores db ++ [s];
                 ratings := ratings db; store_seq := store_seq db + 1;
                 rating_seq := rating_seq db |}).
  exists s, db'. split.
  { unfold include_owner, user_findUnique. cbn [users db' st_ownerId s].
    unfold user_findUnique in Ho. now rewrite Ho. }
  split; [reflexivity|]. split; [reflexivity|].
  split; [reflexivity|]. split; [reflexivity|]. split.
  { unfold store_findUnique. cbn [stores db' st_id s].
    rewrite find_app_none.
    - cbn. now rewrite Z.eqb_refl.
    - apply find_none_of. intros t Ht. apply Z.eqb_neq.
      apply (ok_store_seq _ Hok) in Ht. lia. }
  intros c now'. eexists. split; [reflexivity|].
  exists (listing select_id_name true db' s). split.
  - apply in_map. unfold store_findMany_search.
    apply (Permutation_in _ (Permutation_sym (sort_by_perm _ _))).
    apply filter_In. split; [|reflexivity].
    cbn [stores db']. apply in_or_app. right. now left.
  - split; [reflexivity|].
    assert (Hnone : ratings_of_store db' (st_id s) = [])
      by (apply (no_rating_of_next_store db Hok)).
    unfold listing. cbn [totalRatings averageRating]. rewrite Hnone.
    split; reflexivity.
Qed.

(** X17: an ADMIN's update of an existing store with a valid name and
    address and an OWNER as owner answers 200 and rewrites the name,
    the address and the owner of that store; its id, its ratings and
    with them its totalRatings and averageRating stay, and so does
    every other store. *)
Theorem updated_store_keeps_ratings :
  forall (h : AuthHeader) (now : Z) (admin : Token) (id : Z)
         (name address : jsstring) (ownerId : Z) (o : User) (s0 : Store)
         (db : Db),
    db_ok db ->
    authMiddleware h now = inr admin ->
    tok_role admin = ADMIN ->
    validateName name = true ->
    validateAddress address = true ->
    user_findUnique db ownerId = Some o ->
    u_role o = OWNER ->
    store_findUnique db id = Some s0 ->
    exists s db',
      put_admin_stores_id h now (Some id) name address
        (JNumber (inject_Z ownerId)) db
      = (json (MessageStore "Store updated"
                 {| so_store := s;
                    so_owner := Some (select_id_name_email o) |}), db')
      /\ s = {| st_id := id; st_name := name; st_address := address;
                st_ownerId := ownerId |}
      /\ store_findUnique db' id = Some s
      /\ users db' = users db /\ ratings db' = ratings db
      /\ map st_id (stores db') = map st_id (stores db)
      /\ (forall t, In t (stores db) -> st_id t <> id -> In t (stores db'))
      /\ forall sel owner,
           totalRatings (listing sel owner db' s)
           = totalRatings (listing sel owner db s0)
           /\ averageRating (listing sel owner db' s)
              = averageRating (listing sel owner db s0).
Proof.
  intros h now admin id name address ownerId o s0 db Hok Hauth Hrole Hname
    Haddr Ho Hor Hs0.
  unfold put_admin_stores_id. behind_admin Hauth Hrole.
  rewrite Hname, Haddr. cbn [negb]. steps. unfold store_update, not_an_owner.
  rewrite as_int_inject, Ho, Hor. cbn [role_eqb negb].
  rewrite Hs0, Ho.
  set (s := {| st_id := id; st_name := name; st_address := address;
               st_ownerId := ownerId |}).
  unfold store_findUnique in Hs0.
  pose proof (find_some_id _ _ _ _ Hs0) as [Hin Hid].
  exists s. eexists. split.
  { unfold include_owner, user_findUnique. cbn [users set_stores st_ownerId s].
    unfold user_findUnique in Ho. now rewrite Ho. }
  split; [reflexivity|]. cbn [users stores ratings set_stores]. split.
  { unfold store_findUnique. cbn [stores set_stores].
    now apply (find_map_replace st_id) with (x := s0). }
  split; [reflexivity|]. split; [reflexivity|].
  split; [now apply map_key_replace|]. split.
  - intros t Ht Hne. apply in_map_iff. exists t. split; [|exact Ht].
    apply Z.eqb_neq in Hne. now rewrite Hne.
  - intros sel owner. unfold listing.
    cbn [totalRatings averageRating st_id s]. unfold ratings_of_store.
    cbn [ratings set_stores]. now rewrite Hid.
Qed.

Lemma sumZ_perm (l l' : list Z) : Permutation l l' -> sumZ l = sumZ l'.
Proof.
  induction 1 as [|x l l' _ IH|x y l|l l' l'' _ IH1 _ IH2]; cbn; lia.
Qed.

Lemma sumZ_indicator {A} (key : A -> Z) (x : Z) (rows : list A) :
  NoDup (map key rows) -> In x (map key rows) ->
  sumZ (map (fun s => if x =? key s then 1 else 0) rows) = 1.
Proof.
  induction rows as [|s rows IH]; cbn; intros Hnd Hin; [destruct Hin|].
  apply NoDup_cons_iff in Hnd. destruct Hnd as [Hs Hnd].
  destruct (Z.eqb_spec x (key s)) as [->|Hne].
  - assert (Hz : sumZ (map (fun t => if key s =? key t then 1 else 0) rows) = 0).
    { clear IH Hin Hnd. induction rows as [|t rows IH]; cbn; [reflexivity|].
      destruct (Z.eqb_spec (key s) (key t)) as [E|_].
      - elim Hs. left. now symmetry.
      - rewrite IH; [reflexivity|]. intros H. apply Hs. now right. }
    lia.
  - destruct Hin as [E|Hin]; [now elim Hne|]. rewrite IH; auto.
Qed.

Lemma counts_partition (ss : list Store) (rs : list Rating) :
  NoDup (map st_id ss) ->
  (forall r, In r rs -> In (r_storeId r) (map st_id ss)) ->
  sumZ (map (fun s => Z.of_nat (List.length
                        (filter (fun r => r_storeId r =? st_id s) rs))) ss)
  = Z.of_nat (List.length rs).
Proof.
  intros Hnd. induction rs as [|r rs IH]; intros Hfk.
  - clear. induction ss as [|s ss IHs]; cbn in *; lia.
  - assert (Hsplit :
      sumZ (map (fun s => Z.of_nat (List.length
                   (filter (fun y => r_storeId y =? st_id s) (r :: rs)))) ss)
      = sumZ (map (fun s => if r_storeId r =? st_id s then 1 else 0) ss)
        + sumZ (map (fun s => Z.of_nat (List.length
                       (filter (fun y => r_storeId y =? st_id s) rs))) ss)).
    { clear. induction ss as [|s ss IHs]; cbn [map sumZ]; [reflexivity|].
      rewrite IHs. cbn [filter].
      destruct (r_storeId r =? st_id s); cbn [List.length];
        rewrite ?Nat2Z.inj_succ; lia. }
    rewrite Hsplit, IH by (intros y Hy; apply Hfk; now right).
    rewrite (sumZ_indicator st_id (r_storeId r) ss Hnd)
      by (apply Hfk; now left).
    cbn [List.length]. lia.
Qed.

Lemma ratings_partitioned (db : Db) :
  db_ok db ->
  sumZ (map (count_ratings db) (stores db))
  = Z.of_nat (List.length (ratings db)).
Proof.
  intros Hok. unfold count_ratings, ratings_of_store.
  apply counts_partition; [apply Hok|].
  intros r Hr. apply found_iff. now apply (ok_rating_store _ Hok).
Qed.

(** X18: the totalRatings of the dashboard is the sum of the
    totalRatings of the stores in the public listing without search,
    and its totalStores is the number of entries of that listing. *)
Theorem dashboard_total_is_sum_of_listing :
  forall (rank : Store -> Z) (c : Collation) (h : AuthHeader) (now now' : Z)
         (admin : Token) (db : Db) (d : Dashboard),
    db_ok db ->
    authMiddleware h now = inr admin ->
    tok_role admin = ADMIN ->
    fst (get_admin_dashboard rank h now db) = json (Stats d) ->
    exists l,
      get_stores c now' None db = (json (Listing l), db)
      /\ sumZ (map totalRatings l) = d_totalRatings d
      /\ Z.of_nat (List.length l) = totalStores d.
Proof.
  intros rank c h now now' admin db d Hok Hauth Hrole.
  unfold get_admin_dashboard. behind_admin Hauth Hrole.
  unfold try_catch, bind, read, ret.
  destruct (map_result (topStoreWithAvg db) (store_findMany_top rank db));
    [|discriminate].
  cbn [fst]. intros E. injection E as <-.
  cbn [d_totalRatings totalStores].
  eexists. split; [reflexivity|].
  assert (Hperm : Permutation (store_findMany_search c None db) (stores db)).
  { unfold store_findMany_search. rewrite sort_by_perm.
    rewrite forallb_filter_id; [reflexivity|].
    apply forallb_forall. reflexivity. }
  split.
  - rewrite map_map. cbn [totalRatings listing].
    rewrite <- (ratings_partitioned db Hok).
    apply sumZ_perm. now apply Permutation_map.
  - rewrite length_map. now rewrite (Permutation_length Hperm).
Qed.

(** *** Updating a user *)


(** X20: an ADMIN's update of an existing user to an email that another
    user has is answered 400, Email already exists, and changes
    nothing. *)
Theorem user_update_email_conflict :
  forall (h : AuthHeader) (now : Z) (admin : Token) (id : Z)
         (name email role : jsstring) (u v : User) (db : Db),
    authMiddleware h now = inr admin ->
    tok_role admin = ADMIN ->
    user_findUnique db id = Some u ->
    validateName name = true ->
    validateEmail email = true ->
    role_of_string role <> None ->
    In v (users db) -> u_email v = email -> u_id v <> id ->
    put_admin_users_id h now (Some id) name email role db
    = (error 400 "Email already exists", db).
Proof.
  intros h now admin id name email role u v db
    Hauth Hrole Hu Hname Hemail Hr Hv Hve Hvid.
  unfold put_admin_users_id. behind_admin Hauth Hrole.
  unfold try_catch_P2002, bind, write, int_arg, ret, user_update.
  rewrite Hname, Hemail. cbn [negb].
  destruct (role_of_string role) as [r|]; [|now elim Hr].
  cbv beta iota zeta delta [ret]. rewrite Hu.
  replace (existsb _ (users db)) with true; [reflexivity|].
  symmetry. apply existsb_exists. exists v. split; [exact Hv|].
  rewrite Hve, str_eqb_refl. apply Z.eqb_neq in Hvid. now rewrite Hvid.
Qed.

(** ** The theorems at the sample data *)

Ltac nodup_closed :=
  repeat (constructor; [cbn; intuition discriminate|]); constructor.

Ltac each_row :=
  let x := fresh "x" in
  let Hx := fresh "Hx" in
  intros x Hx; cbn in Hx;
  repeat (destruct Hx as [<-|Hx]; [vm_compute; try discriminate; try reflexivity|]);
  try contradiction.

Lemma sample_db0_ok : db_ok Sample.db0.
Proof.
  constructor; try nodup_closed; each_row.
Qed.

Lemma sample_db1_ok : db_ok Sample.db1.
Proof.
  constructor; try nodup_closed; each_row.
Qed.

Lemma sample_db1_range : ratings_in_range Sample.db1.
Proof.
  repeat constructor; cbn; lia.
Qed.

Lemma sample_db2_ok : db_ok Sample.db2.
Proof.
  constructor; try nodup_closed; each_row.
Qed.

Lemma sample_db2_range : ratings_in_range Sample.db2.
Proof.
  repeat constructor; cbn; lia.
Qed.

Lemma resubmitted_rating_witness :
  db_ok Sample.db0
  /\ 1 <= 5 <= 5 /\ 1 <= 2 <= 5 /\ 5 <> 2
  /\ exists r1 db1 r2 db2,
       post_stores_id_rate (Bearer Sample.shopper_token) Sample.noon (Some 1)
         (JNumber (inject_Z 5)) Sample.db0
       = (json (OneRating r1), db1)
       /\ post_stores_id_rate (Bearer Sample.shopper_token) Sample.noon (Some 1)
            (JNumber (inject_Z 2)) db1
          = (json (OneRating r2), db2)
       /\ filter (same_pair 1 (tok_id Sample.shopper_token)) (ratings db2) = [r2]
       /\ r_rating r2 = 2
       /\ r_id r2 = r_id r1
       /\ List.length (ratings db2) = List.length (ratings db1).
Proof.
  split; [exact sample_db0_ok|].
  split; [lia|]. split; [lia|]. split; [discriminate|].
  apply (resubmitted_rating_is_updated_in_place
           (Bearer Sample.shopper_token) (Bearer Sample.shopper_token)
           Sample.noon Sample.noon Sample.shopper_token Sample.shopper_token
           Sample.db0 1 5 2).
  - exact sample_db0_ok.
  - reflexivity.
  - reflexivity.
  - reflexivity.
  - reflexivity.
  - reflexivity.
  - vm_compute. discriminate.
  - vm_compute. discriminate.
  - lia.
  - lia.
  - discriminate.
Defined.

Lemma listings_witness :
  ratings_in_range Sample.db2
  /\ Z.of_nat (List.length (ratings Sample.db2)) < 2 ^ 46
  /\ (exists l,
        get_stores Sample.collation Sample.noon None Sample.db2
        = (json (Listing l), Sample.db2)
        /\ Permutation (map l_store l)
             (filter (asked_for Sample.collation None) (stores Sample.db2))
        /\ Forall (aggregate_of Sample.db2) l)
  /\ (forall l e,
        get_stores Sample.collation Sample.noon None Sample.db2
        = (json (Listing l), Sample.db2) ->
        In e l ->
        (values_of Sample.db2 (st_id (l_store e)) = [5; 4; 3] ->
         totalRatings e = 3 /\ averageRating e = Qmake 40 10)
        /\ (values_of Sample.db2 (st_id (l_store e)) = [] ->
            totalRatings e = 0 /\ (averageRating e == 0)%Q)).
Proof.
  split; [exact sample_db2_range|]. split; [reflexivity|].
  destruct (listings_report_count_and_rounded_mean Sample.db2
              sample_db2_range eq_refl) as (Hpublic & _ & _ & Hshown).
  split.
  - apply (Hpublic Sample.collation Sample.noon None).
  - apply (Hshown Sample.collation Sample.noon None).
Defined.

Lemma rate_permitted_witness :
  authMiddleware (Bearer Sample.owner_token) Sample.noon
  = inr Sample.owner_token
  /\ post_stores_id_rate (Bearer Sample.owner_token) Sample.noon (Some 1)
       (JNumber (inject_Z 5)) Sample.db0
     = (error 403 "Only normal users can rate stores", Sample.db0).
Proof.
  split; [reflexivity|].
  apply (rate_permitted_iff_role_user (Bearer Sample.owner_token) Sample.noon
           Sample.owner_token).
  - reflexivity.
  - left. reflexivity.
Defined.

Lemma owner_id_witness :
  authMiddleware (Bearer Sample.admin_token) Sample.noon
  = inr Sample.admin_token
  /\ tok_role Sample.admin_token = ADMIN
  /\ validateName (st_name Sample.grocer) = true
  /\ validateAddress (st_address Sample.grocer) = true
  /\ post_stores (Bearer Sample.admin_token) Sample.noon
       (st_name Sample.grocer) (st_address Sample.grocer)
       (JOther false None) Sample.db0
     = ({| status := 500; body := ErrorOf PrismaValidation |}, Sample.db0)
  /\ (status (fst (post_stores (Bearer Sample.admin_token) Sample.noon
                     (st_name Sample.grocer) (st_address Sample.grocer)
                     (JNumber (inject_Z 3)) Sample.db0)) = 400
      /\ snd (post_stores (Bearer Sample.admin_token) Sample.noon
                (st_name Sample.grocer) (st_address Sample.grocer)
                (JNumber (inject_Z 3)) Sample.db0) = Sample.db0)
  /\ exists o' db',
       put_admin_users_id (Bearer Sample.admin_token) Sample.noon (Some 2)
         (u_name Sample.owner) (u_email Sample.owner) (lit "USER") Sample.db0
       = (json (MessageUser "User updated" (select_all_but_password o')), db')
       /\ stores db' = stores Sample.db0
       /\ In Sample.bakery (stores db')
       /\ user_findUnique db' 2 = Some o'
       /\ u_role o' = USER.
Proof.
  split; [reflexivity|]. split; [reflexivity|].
  split; [reflexivity|]. split; [reflexivity|].
  destruct (owner_id_is_not_validated
              (Bearer Sample.admin_token) Sample.noon Sample.admin_token
              Sample.db0 eq_refl eq_refl) as (Hrefused & Hthrown & Hlater).
  split; [|split].
  - apply (Hthrown (st_name Sample.grocer) (st_address Sample.grocer)
             (JOther false None) eq_refl eq_refl I).
  - apply (Hrefused (st_name Sample.grocer) (st_address Sample.grocer)
             (inject_Z 3) eq_refl).
    intros o E. vm_compute in E. injection E as <-. discriminate.
  - apply (Hlater Sample.bakery Sample.owner (u_name Sample.owner)
             (u_email Sample.owner) (lit "USER") USER).
    + left. reflexivity.
    + reflexivity.
    + reflexivity.
    + reflexivity.
    + reflexivity.
    + intros v Hv E. cbn in Hv.
      destruct Hv as [<-|[<-|[<-|[]]]]; (reflexivity || discriminate E).
Defined.

Lemma delete_user_witness :
  user_findUnique Sample.db1 3 = Some Sample.shopper
  /\ delete_admin_users_id (Bearer Sample.admin_token) Sample.noon (Some 3)
       Sample.db1
     = (error 400 "Cannot delete user with stores or ratings", Sample.db1)
  /\ exists db',
       delete_admin_users_id (Bearer Sample.admin_token) Sample.noon (Some 3)
         Sample.db0
       = (json (Message "User deleted successfully"), db')
       /\ users db' = filter (fun v => negb (u_id v =? 3)) (users Sample.db0)
       /\ user_findUnique db' 3 = None
       /\ stores db' = stores Sample.db0
       /\ ratings db' = ratings Sample.db0.
Proof.
  split; [reflexivity|]. split.
  - apply (delete_user_guarded (Bearer Sample.admin_token) Sample.noon
             Sample.admin_token Sample.db1 3 Sample.shopper
             eq_refl eq_refl eq_refl).
    right. vm_compute. discriminate.
  - apply (delete_user_guarded (Bearer Sample.admin_token) Sample.noon
             Sample.admin_token Sample.db0 3 Sample.shopper
             eq_refl eq_refl eq_refl).
    split; reflexivity.
Defined.

Lemma delete_store_witness :
  store_findUnique Sample.db1 1 = Some Sample.bakery
  /\ exists db',
       delete_admin_stores_id (Bearer Sample.admin_token) Sample.noon (Some 1)
         Sample.db1
       = (json (Message "Store deleted successfully"), db')
       /\ store_findUnique db' 1 = None
       /\ stores db' = filter (fun t => negb (st_id t =? 1)) (stores Sample.db1)
       /\ ratings_of_store db' 1 = []
       /\ (forall r, In r (ratings db') -> r_storeId r <> 1)
       /\ ratings db'
          = filter (fun r => negb (r_storeId r =? 1)) (ratings Sample.db1)
       /\ users db' = users Sample.db1.
Proof.
  split; [reflexivity|].
  apply (delete_store_cascades (Bearer Sample.admin_token) Sample.noon
           Sample.admin_token Sample.db1 1 Sample.bakery
           eq_refl eq_refl eq_refl).
Defined.


Lemma missing_id_witness :
  db_ok Sample.db0
  /\ store_findUnique Sample.db0 42 = None
  /\ user_findUnique Sample.db0 42 = None
  /\ post_stores_id_rate (Bearer Sample.shopper_token) Sample.noon (Some 42)
       (JNumber (inject_Z 5)) Sample.db0
     = (error 404 "Store not found", Sample.db0)
  /\ delete_admin_users_id (Bearer Sample.admin_token) Sample.noon (Some 42)
       Sample.db0
     = ({| status := 500; body := ErrorOf TypeError |}, Sample.db0)
  /\ delete_admin_stores_id (Bearer Sample.admin_token) Sample.noon (Some 42)
       Sample.db0
     = ({| status := 500; body := ErrorOf P2025 |}, Sample.db0)
  /\ delete_admin_stores_id (Bearer Sample.admin_token) Sample.noon
       (Some (2 ^ 31)) Sample.db0
     = ({| status := 500; body := ErrorOf PrismaValidation |}, Sample.db0).
Proof.
  split; [exact sample_db0_ok|]. split; [reflexivity|]. split; [reflexivity|].
  destruct (missing_id_is_404_only_when_rating
              (Bearer Sample.shopper_token) Sample.noon Sample.shopper_token
              Sample.db0 42 sample_db0_ok eq_refl) as (Hrate & _ & _).
  destruct (missing_id_is_404_only_when_rating
              (Bearer Sample.admin_token) Sample.noon Sample.admin_token
              Sample.db0 42 sample_db0_ok eq_refl) as (_ & Huser & Hstore).
  destruct (missing_id_is_404_only_when_rating
              (Bearer Sample.admin_token) Sample.noon Sample.admin_token
              Sample.db0 (2 ^ 31) sample_db0_ok eq_refl) as (_ & _ & Hwide).
  split; [|split; [|split]].
  - apply (Hrate eq_refl eq_refl 5). lia.
  - apply (Huser eq_refl eq_refl).
  - apply (Hstore eq_refl eq_refl).
  - apply (Hwide eq_refl eq_refl).
Defined.

Lemma dashboard_witness :
  db_ok Sample.db2
  /\ ratings_in_range Sample.db2
  /\ exists d chosen rest,
       get_admin_dashboard st_id (Bearer Sample.admin_token) Sample.noon
         Sample.db2
       = (json (Stats d), Sample.db2)
       /\ totalUsers d = Z.of_nat (List.length (users Sample.db2))
       /\ totalStores d = Z.of_nat (List.length (stores Sample.db2))
       /\ d_totalRatings d = Z.of_nat (List.length (ratings Sample.db2))
       /\ (forall r n, In (r, n) (usersByRole d)
                       <-> n = users_with_role Sample.db2 r /\ 0 < n)
       /\ (List.length (topStores d) <= 5)%nat
       /\ List.length (topStores d)
          = Nat.min 5 (List.length (stores Sample.db2))
       /\ Forall2 (top_of Sample.db2) chosen (topStores d)
       /\ Permutation (chosen ++ rest) (stores Sample.db2)
       /\ StronglySorted
            (fun a b => count_of Sample.db2 b <= count_of Sample.db2 a) chosen
       /\ (forall a b, In a chosen -> In b rest ->
                       count_of Sample.db2 b <= count_of Sample.db2 a)
       /\ StronglySorted (ranked_before st_id Sample.db2) chosen
       /\ (forall a b, In a chosen -> In b rest ->
                       ranked_before st_id Sample.db2 a b).
Proof.
  split; [exact sample_db2_ok|]. split; [exact sample_db2_range|].
  apply (dashboard_top_five_by_rating_count st_id (Bearer Sample.admin_token)
           Sample.noon Sample.admin_token Sample.db2 eq_refl eq_refl
           sample_db2_ok sample_db2_range).
  reflexivity.
Defined.

Lemma login_role_witness :
  post_login str_eqb 0 (u_email Sample.shopper) (u_password Sample.shopper)
    Sample.db0
  = (json (TokenUser Sample.shopper_token
             (select_id_name_email_role Sample.shopper)), Sample.db0)
  /\ exists u,
       user_findUnique_email Sample.db0 (u_email Sample.shopper) = Some u
       /\ tok_id Sample.shopper_token = u_id u
       /\ tok_role Sample.shopper_token = u_role u
       /\ tok_exp Sample.shopper_token = 0 + 86400
       /\ (forall now, now < 0 + 86400 ->
             run_chain Auth (Bearer Sample.shopper_token) now
             = inr Sample.shopper_token
             /\ run_chain AuthAdmin (Bearer Sample.shopper_token) now
                = (if role_eqb (u_role u) ADMIN then inr Sample.shopper_token
                   else inl (error 403 "Admin access required"))
             /\ run_chain AuthOwner (Bearer Sample.shopper_token) now
                = (if role_eqb (u_role u) OWNER then inr Sample.shopper_token
                   else inl (error 403 "Store owner access required"))
             /\ (forall r,
                   answered (run_chain (middleware r)
                               (Bearer Sample.shopper_token) now)
                   = match required_role (middleware r) with
                     | Some role => negb (role_eqb (u_role u) role)
                     | None => false
                     end)
             /\ forall db' id rating,
                  status (fst (post_stores_id_rate (Bearer Sample.shopper_token)
                                 now id rating db')) = 403
                  <-> u_role u <> USER)
       /\ (forall now, 0 + 86400 <= now ->
             authMiddleware (Bearer Sample.shopper_token) now
             = inl (error 403 "Invalid token")).
Proof.
  split; [reflexivity|].
  apply (authorization_uses_role_at_login str_eqb 0 (u_email Sample.shopper)
           (u_password Sample.shopper) Sample.db0 Sample.db0
           Sample.shopper_token (select_id_name_email_role Sample.shopper)).
  reflexivity.
Defined.

(** *** Runs of the handlers *)

(** At an exact tie the digit is that of the double: 23/20 is the
    double just below 1.15 and prints 1.1; 5/4 is exact and prints 1.3. *)
Example average_at_ties :
  average (Sample.rated (repeat 1 17 ++ repeat 2 3)) = Qmake 11 10
  /\ average (Sample.rated [1; 1; 1; 2]) = Qmake 13 10
  /\ average (Sample.rated (repeat 1 19 ++ [2])) = Qmake 11 10.
Proof. repeat split; vm_compute; reflexivity. Qed.

(** The spec's end-to-end run from the first rating on: the shopper
    rates the bakery 5 and the listing shows 5.0 and 1; the shopper
    rates it 2 and the listing shows 2.0 and 1. *)
Example rate_list_rate_list :
  let shopper := Bearer Sample.shopper_token in
  let db1 := snd (post_stores_id_rate shopper Sample.noon (Some 1)
                    (JNumber (inject_Z 5)) Sample.db0) in
  let db2 := snd (post_stores_id_rate shopper Sample.noon (Some 1)
                    (JNumber (inject_Z 2)) db1) in
  let shown db :=
    match body (fst (get_stores Sample.collation Sample.noon None db)) with
    | Listing [e] => Some (averageRating e, totalRatings e)
    | _ => None
    end in
  db1 = Sample.db1
  /\ shown db1 = Some (Qmake 50 10, 1)
  /\ shown db2 = Some (Qmake 20 10, 1).
Proof. repeat split; vm_compute; reflexivity. Qed.

(** A token outlives a change of role: the shopper logs in, the ADMIN
    makes the shopper an OWNER, and the shopper's token still rates a
    store, while the owner routes still refuse it. *)
Example token_outlives_role_change :
  let login := post_login str_eqb 0 (u_email Sample.shopper)
                 (u_password Sample.shopper) Sample.db0 in
  let changed := put_admin_users_id (Bearer Sample.admin_token) Sample.noon
                   (Some 3) (u_name Sample.shopper) (u_email Sample.shopper)
                   (lit "OWNER") Sample.db0 in
  body (fst login)
  = TokenUser Sample.shopper_token (select_id_name_email_role Sample.shopper)
  /\ status (fst changed) = 200
  /\ option_map u_role (user_findUnique (snd changed) 3) = Some OWNER
  /\ status (fst (post_stores_id_rate (Bearer Sample.shopper_token) Sample.noon
                    (Some 1) (JNumber (inject_Z 4)) (snd changed))) = 200
  /\ fst (get_owner_stores (Bearer Sample.shopper_token) Sample.noon
            (snd changed))
     = error 403 "Store owner access required".
Proof. repeat split; vm_compute; reflexivity. Qed.

(** *** The rest of the server at the sample data *)

Ltac other_emails :=
  let v := fresh "v" in
  let Hv := fresh "Hv" in
  let E := fresh "E" in
  intros v Hv; cbn in Hv;
  repeat (destruct Hv as [<-|Hv];
          [try (intros E; vm_compute in E; discriminate E)|]);
  try contradiction.

Lemma average_between_witness :
  Sample.rated [5; 4; 3] <> []
  /\ (1 <= average (Sample.rated [5; 4; 3]%Z) <= 5)%Q.
Proof.
  split; [discriminate|].
  apply (average_between_1_and_5 (Sample.rated [5; 4; 3])).
  - discriminate.
  - repeat constructor; cbn; lia.
  - reflexivity.
Defined.

Lemma average_of_equal_witness :
  1 <= 4 <= 5 /\ average (Sample.rated [4; 4; 4]) = Qmake (10 * 4) 10.
Proof.
  split; [lia|].
  apply (average_of_equal_ratings (Sample.rated [4; 4; 4]) 4).
  - discriminate.
  - lia.
  - repeat constructor.
  - reflexivity.
Defined.

Lemma refused_token_witness :
  authMiddleware NoHeader Sample.noon = inl (error 401 "No token provided")
  /\ delete_admin_stores_id NoHeader Sample.noon (Some 1) Sample.db1
     = (error 401 "No token provided", Sample.db1).
Proof.
  split; [reflexivity|].
  destruct (refused_token_changes_nothing NoHeader Sample.noon
              (error 401 "No token provided") eq_refl) as [_ H].
  apply (H Sample.db1).
Defined.

Lemma wrong_role_witness :
  authMiddleware (Bearer Sample.shopper_token) Sample.noon
  = inr Sample.shopper_token
  /\ tok_role Sample.shopper_token <> ADMIN
  /\ delete_admin_stores_id (Bearer Sample.shopper_token) Sample.noon (Some 1)
       Sample.db1
     = (error 403 "Admin access required", Sample.db1).
Proof.
  assert (Hr : tok_role Sample.shopper_token <> ADMIN) by discriminate.
  split; [reflexivity|]. split; [exact Hr|].
  destruct (wrong_role_changes_nothing (Bearer Sample.shopper_token)
              Sample.noon Sample.shopper_token eq_refl) as [H _].
  apply (H Hr Sample.db1).
Defined.

Lemma signup_then_login_witness :
  validatePassword Sample.newcomer_password = true
  /\ exists u db',
       post_signup Sample.hash 4 (Bearer Sample.admin_token) Sample.noon
         Sample.newcomer_name Sample.newcomer_email Sample.newcomer_password
         (lit "OWNER") Sample.db0
       = (json (MessageUser "User created" (select_id_name_email_role u)), db')
       /\ users db' = users Sample.db0 ++ [u]
       /\ post_login Sample.compare 0 Sample.newcomer_email
            Sample.newcomer_password db'
          = (json (TokenUser (jwt_sign 4 OWNER 0)
                     (select_id_name_email_role u)), db').
Proof.
  split; [reflexivity|].
  destruct (signup_then_login Sample.hash Sample.compare 4
              (Bearer Sample.admin_token) Sample.noon Sample.admin_token
              Sample.newcomer_name Sample.newcomer_email
              Sample.newcomer_password (lit "OWNER") OWNER Sample.db0
              eq_refl eq_refl eq_refl eq_refl eq_refl eq_refl)
    as (u & db' & H1 & H2 & _ & _ & _ & _ & _ & _ & _ & H3).
  - other_emails.
  - reflexivity.
  - exists u, db'. split; [exact H1|]. split; [exact H2|]. apply H3.
Defined.

Lemma signup_duplicate_witness :
  In Sample.owner (users Sample.db0)
  /\ post_signup Sample.hash 4 (Bearer Sample.admin_token) Sample.noon
       Sample.newcomer_name (u_email Sample.owner) Sample.newcomer_password
       (lit "USER") Sample.db0
     = (error 400 "Email already exists", Sample.db0).
Proof.
  assert (Hin : In Sample.owner (users Sample.db0)) by (right; left; reflexivity).
  split; [exact Hin|].
  destruct (signup_duplicate_email Sample.hash 4 (Bearer Sample.admin_token)
              Sample.noon Sample.admin_token Sample.newcomer_name
              (u_email Sample.owner) Sample.newcomer_password (lit "USER")
              Sample.db0 Sample.owner eq_refl eq_refl Hin eq_refl)
    as (_ & _ & H).
  apply H; try reflexivity. discriminate.
Defined.

Lemma password_change_witness :
  db_ok Sample.db0
  /\ exists u' db',
       put_users_password (fun p => p) str_eqb (Bearer Sample.shopper_token)
         Sample.noon (u_password Sample.shopper) Sample.newcomer_password
         Sample.db0
       = (json (Message "Password updated successfully"), db')
       /\ u_password u' = Sample.newcomer_password
       /\ post_login str_eqb 0 (u_email Sample.shopper)
            Sample.newcomer_password db'
          = (json (TokenUser (jwt_sign 3 USER 0)
                     (select_id_name_email_role u')), db').
Proof.
  split; [exact sample_db0_ok|].
  destruct (password_change_then_login (fun p => p) str_eqb
              (Bearer Sample.shopper_token) Sample.noon Sample.shopper_token
              (u_password Sample.shopper) Sample.newcomer_password Sample.db0
              Sample.shopper sample_db0_ok eq_refl eq_refl eq_refl eq_refl
              eq_refl eq_refl)
    as (u' & db' & H1 & _ & H2 & _ & _ & _ & _ & _ & H3).
  exists u', db'. split; [exact H1|]. split; [exact H2|]. apply H3.
Defined.

Lemma password_change_refused_witness :
  authMiddleware (Bearer Sample.shopper_token) Sample.noon
  = inr Sample.shopper_token
  /\ put_users_password (fun p => p) str_eqb (Bearer Sample.shopper_token)
       Sample.noon (lit "not the password") Sample.newcomer_password Sample.db0
     = (error 400 "Current password is incorrect", Sample.db0).
Proof.
  split; [reflexivity|].
  destruct (password_change_refused (fun p => p) str_eqb
              (Bearer Sample.shopper_token) Sample.noon Sample.shopper_token
              (lit "not the password") Sample.newcomer_password Sample.db0
              eq_refl) as (_ & _ & H).
  apply (H Sample.shopper); reflexivity.
Defined.

Lemma sample_db1_state_ok : state_ok Sample.db1.
Proof. split; [exact sample_db1_ok|exact sample_db1_range]. Qed.

Lemma users_routes_preserve_witness :
  state_ok Sample.db1
  /\ state_ok (snd (post_signup Sample.hash 4 (Bearer Sample.admin_token)
                      Sample.noon Sample.newcomer_name Sample.newcomer_email
                      Sample.newcomer_password (lit "USER") Sample.db1)).
Proof.
  split; [exact sample_db1_state_ok|].
  destruct (users_routes_preserve_state_ok Sample.db1 sample_db1_state_ok)
    as [H _].
  apply H. cbn. intros [E|[E|[E|[]]]]; discriminate E.
Defined.




Lemma users_list_witness :
  tok_role Sample.admin_token = ADMIN
  /\ exists chosen,
       get_admin_users Sample.collation (Bearer Sample.admin_token) Sample.noon
         (Some (lit "Oliver")) (Some (lit "OWNER")) Sample.db0
       = (inr (map (user_row Sample.db0) chosen), Sample.db0)
       /\ In Sample.owner chosen
       /\ ~ In Sample.shopper chosen.
Proof.
  split; [reflexivity|].
  destruct (users_list_filters Sample.collation (Bearer Sample.admin_token)
              Sample.noon Sample.admin_token (Some (lit "Oliver"))
              (Some (lit "OWNER")) Sample.db0 eq_refl eq_refl)
    as (chosen & keep & Hcall & Hperm & Hkeep & _).
  exists chosen. split; [exact Hcall|]. split.
  - apply (Permutation_in _ (Permutation_sym Hperm)).
    apply filter_In. split; [right; left; reflexivity|].
    apply Hkeep. split; [reflexivity|].
    repeat split; intros E; vm_compute in E; try discriminate E; reflexivity.
  - intros Hin. apply (Permutation_in _ Hperm) in Hin.
    apply filter_In in Hin. destruct Hin as [_ Hk].
    apply Hkeep in Hk. destruct Hk as (_ & _ & Hown & _).
    specialize (Hown eq_refl). discriminate Hown.
Defined.

Lemma role_counts_witness :
  exists d,
    fst (get_admin_dashboard st_id (Bearer Sample.admin_token) Sample.noon
           Sample.db1)
    = json (Stats d)
    /\ sum_counts (usersByRole d) = totalUsers d.
Proof.
  eexists. split; [reflexivity|].
  apply (role_counts_add_up st_id (Bearer Sample.admin_token) Sample.noon
           Sample.admin_token Sample.db1 _ eq_refl eq_refl eq_refl).
Defined.

Lemma created_store_witness :
  db_ok Sample.db1
  /\ exists s db',
       post_stores (Bearer Sample.admin_token) Sample.noon
         (lit "A Second Shop Around the Corner") (lit "2 Main Street")
         (JNumber (inject_Z 2)) Sample.db1
       = (json (OneStore {| so_store := s;
                            so_owner := Some (select_id_name_email
                                                Sample.owner) |}), db')
       /\ st_id s = 2
       /\ store_findUnique db' 2 = Some s.
Proof.
  split; [exact sample_db1_ok|].
  destruct (created_store_is_listed (Bearer Sample.admin_token) Sample.noon
              Sample.admin_token (lit "A Second Shop Around the Corner")
              (lit "2 Main Street") 2 Sample.owner Sample.db1 sample_db1_ok
              eq_refl eq_refl eq_refl eq_refl eq_refl eq_refl)
    as (s & db' & H1 & H2 & _ & _ & _ & H3 & _).
  exists s, db'. split; [exact H1|]. rewrite H2 in *. split; [reflexivity|].
  exact H3.
Defined.

Lemma updated_store_witness :
  store_findUnique Sample.db1 1 = Some Sample.bakery
  /\ exists s db',
       put_admin_stores_id (Bearer Sample.admin_token) Sample.noon (Some 1)
         (lit "The Corner Bakery, Renamed") (lit "3 Main Street")
         (JNumber (inject_Z 2)) Sample.db1
       = (json (MessageStore "Store updated"
                  {| so_store := s;
                     so_owner := Some (select_id_name_email Sample.owner) |}),
          db')
       /\ ratings db' = ratings Sample.db1.
Proof.
  split; [reflexivity|].
  destruct (updated_store_keeps_ratings (Bearer Sample.admin_token)
              Sample.noon Sample.admin_token 1
              (lit "The Corner Bakery, Renamed") (lit "3 Main Street") 2
              Sample.owner Sample.bakery Sample.db1 sample_db1_ok
              eq_refl eq_refl eq_refl eq_refl eq_refl eq_refl eq_refl)
    as (s & db' & H1 & _ & _ & _ & H2 & _).
  exists s, db'. split; [exact H1|exact H2].
Defined.

Lemma dashboard_total_witness :
  db_ok Sample.db1
  /\ exists d l,
       fst (get_admin_dashboard st_id (Bearer Sample.admin_token) Sample.noon
              Sample.db1) = json (Stats d)
       /\ get_stores Sample.collation 0 None Sample.db1
          = (json (Listing l), Sample.db1)
       /\ sumZ (map totalRatings l) = d_totalRatings d.
Proof.
  split; [exact sample_db1_ok|].
  eexists.
  destruct (dashboard_total_is_sum_of_listing st_id Sample.collation
              (Bearer Sample.admin_token) Sample.noon 0 Sample.admin_token
              Sample.db1 _ sample_db1_ok eq_refl eq_refl eq_refl)
    as (l & H1 & H2 & _).
  exists l. split; [reflexivity|]. split; [exact H1|exact H2].
Defined.


Lemma user_update_conflict_witness :
  In Sample.owner (users Sample.db0)
  /\ put_admin_users_id (Bearer Sample.admin_token) Sample.noon (Some 3)
       (u_name Sample.shopper) (u_email Sample.owner) (lit "USER") Sample.db0
     = (error 400 "Email already exists", Sample.db0).
Proof.
  assert (Hin : In Sample.owner (users Sample.db0)) by (right; left; reflexivity).
  split; [exact Hin|].
  apply (user_update_email_conflict (Bearer Sample.admin_token) Sample.noon
           Sample.admin_token 3 (u_name Sample.shopper) (u_email Sample.owner)
           (lit "USER") Sample.shopper Sample.owner Sample.db0
           eq_refl eq_refl eq_refl eq_refl eq_refl);
    [discriminate|exact Hin|reflexivity|discriminate].
Defined.
